(** * The multi_dep loader of android_taskgraph

    A shallow embedding of
    [taskcluster/android_taskgraph/loader/multi_dep.py]: the functions
    [loader], [assert_unique_members] and [get_primary_dep], over a small
    model of the Python values they handle. *)

From Stdlib Require Import ZArith Lia.
From stdpp Require Import base list strings gmap pretty.

Open Scope string_scope.
Open Scope list_scope.

(** ** Python values, exceptions and dictionaries *)

Module Py.

(** Identity of a mutable container: the analogue of CPython's [id]. *)
Definition addr := nat.

(** The values a [kind.yml] configuration is made of.  Lists and mappings are
    mutable objects and carry their identity; mappings are keyed by strings
    and keep insertion order.  Every occurrence of a container in such a
    value is an object of its own (no sharing inside one value). *)
#[local] Unset Elimination Schemes.
Inductive pyobj : Type :=
| PNone
| PBool (b : bool)
| PInt (z : Z)
| PStr (s : string)
| PList (a : addr) (items : list pyobj)
| PDict (a : addr) (items : list (string * pyobj)).
#[local] Set Elimination Schemes.

(** An insertion-ordered dictionary, as an association list.  A Python
    dictionary never holds a key twice: see [dict_wf]. *)
Definition pydict (K V : Type) := list (K * V).

(** The arguments of an exception: nothing, a literal string, or a format
    template together with the objects handed to [str.format] (left
    unrendered). *)
Inductive fmt_arg : Type :=
| FObj (v : pyobj)
| FMap (d : pydict string pyobj).

Inductive message : Type :=
| MsgNone
| MsgStr (s : string)
| MsgFormat (template : string) (args : list fmt_arg).

Inductive exn : Type :=
| AssertionError (msg : string)
| AttributeError (msg : string)
| TypeError (msg : string)
| ValueError (msg : string)
| KeyError (key : string)
| Exception_ (msg : message).

(** The outcome of a call: a value or a raised exception. *)
Inductive result (A : Type) : Type :=
| Ok (a : A)
| Raise (e : exn).
Arguments Ok {A} a.
Arguments Raise {A} e.

Definition bind {A B : Type} (m : result A) (k : A -> result B) : result B :=
  match m with
  | Ok a => k a
  | Raise e => Raise e
  end.

Notation "'let*' x ':=' m 'in' k" := (bind m (fun x => k))
  (at level 10, x pattern, m at level 100, k at level 200).

(** A generator that has run to its end: the values it yielded, in order,
    closed by a normal return or by the exception that ended it. *)
Inductive gen (A : Type) : Type :=
| Stop
| Yield (x : A) (rest : gen A)
| Throw (e : exn).
Arguments Stop {A}.
Arguments Yield {A} x rest.
Arguments Throw {A} e.

(** The generator that yields the elements of [xs] and goes on as [rest]. *)
Definition yield_all {A : Type} (xs : list A) (rest : gen A) : gen A :=
  fold_right Yield rest xs.

(** The values a generator yielded. *)
Fixpoint yielded {A : Type} (g : gen A) : list A :=
  match g with
  | Yield x rest => x :: yielded rest
  | _ => []
  end.

(** The exception a generator ended with, if any. *)
Fixpoint thrown {A : Type} (g : gen A) : option exn :=
  match g with
  | Stop => None
  | Yield _ rest => thrown rest
  | Throw e => Some e
  end.

(** Code that may allocate objects: the next free identity is threaded
    through, and an exception ends the computation. *)
Definition M (A : Type) := addr -> result (A * addr).

Definition ret {A : Type} (a : A) : M A := fun n => Ok (a, n).

Definition mbind_ {A B : Type} (m : M A) (k : A -> M B) : M B :=
  fun n =>
    match m n with
    | Ok (a, n') => k a n'
    | Raise e => Raise e
    end.

Definition lift {A : Type} (r : result A) : M A :=
  fun n =>
    match r with
    | Ok a => Ok (a, n)
    | Raise e => Raise e
    end.

Notation "'let+' x ':=' m 'in' k" := (mbind_ m (fun x => k))
  (at level 10, x pattern, m at level 100, k at level 200).

Section Dict.
Context {K V : Type} `{EqDecision K}.

(** [d.get(k)] *)
Fixpoint dict_get (k : K) (d : pydict K V) : option V :=
  match d with
  | [] => None
  | (k', v) :: d' => if decide (k = k') then Some v else dict_get k d'
  end.

(** [d[k] = v]: an existing key keeps its place, a new one goes last. *)
Fixpoint dict_set (k : K) (v : V) (d : pydict K V) : pydict K V :=
  match d with
  | [] => [(k, v)]
  | (k', v') :: d' =>
      if decide (k = k') then (k', v) :: d' else (k', v') :: dict_set k v d'
  end.

(** Iterating a dictionary gives its keys, in insertion order. *)
Definition dict_keys (d : pydict K V) : list K := map fst d.

Definition dict_values (d : pydict K V) : list V := map snd d.

(** [len(d)] *)
Definition dict_len (d : pydict K V) : nat := length d.

(** [{k: v for (k, v) in kvs}] and [d.update(other)] for a mapping
    [other]: the entries are stored one after the other. *)
Definition dict_update (d other : pydict K V) : pydict K V :=
  fold_left (fun acc kv => dict_set kv.1 kv.2 acc) other d.

Definition dict_of (kvs : list (K * V)) : pydict K V := dict_update [] kvs.

(** The invariant of Python dictionaries: no key occurs twice. *)
Definition dict_wf (d : pydict K V) : Prop := NoDup (dict_keys d).
End Dict.

(** [d[k]] on a string-keyed dictionary. *)
Definition dict_getitem {V : Type} (k : string) (d : pydict string V) : result V :=
  match dict_get k d with
  | Some v => Ok v
  | None => Raise (KeyError k)
  end.

(** [d.get(k)] with its default [None], on a dictionary of values. *)
Definition py_get (k : string) (d : pydict string pyobj) : pyobj :=
  match dict_get k d with
  | Some v => v
  | None => PNone
  end.

(** [isinstance(x, str)] *)
Definition isinstance_str (x : pyobj) : bool :=
  match x with
  | PStr _ => true
  | _ => false
  end.

(** Truth value of an object, as [if x:] and [not x] test it. *)
Definition truthy (x : pyobj) : bool :=
  match x with
  | PNone => false
  | PBool b => b
  | PInt z => negb (Z.eqb z 0)
  | PStr s => negb (String.eqb s "")
  | PList _ items => negb (Nat.eqb (length items) 0)
  | PDict _ items => negb (Nat.eqb (length items) 0)
  end.

(** [k == x] for a string [k]: only an equal string compares equal. *)
Definition str_eq (k : string) (x : pyobj) : bool :=
  match x with
  | PStr s => bool_decide (k = s)
  | _ => false
  end.

(** The characters of a string, each a string of length one. *)
Fixpoint chars (s : string) : list string :=
  match s with
  | EmptyString => []
  | String c s' => String c EmptyString :: chars s'
  end.

Definition type_name (x : pyobj) : string :=
  match x with
  | PNone => "NoneType"
  | PBool _ => "bool"
  | PInt _ => "int"
  | PStr _ => "str"
  | PList _ _ => "list"
  | PDict _ _ => "dict"
  end.

(** The elements [for y in x] runs over; numbers, booleans and [None]
    cannot be iterated. *)
Definition py_iter (x : pyobj) : result (list pyobj) :=
  match x with
  | PStr s => Ok (map PStr (chars s))
  | PList _ items => Ok items
  | PDict _ items => Ok (map PStr (dict_keys items))
  | _ => Raise (TypeError ("'" +:+ type_name x +:+ "' object is not iterable"))
  end.

(** A loop [for x in l: s = body(x, s)] whose body may raise. *)
Fixpoint for_each {A S : Type} (body : A -> S -> result S) (l : list A) (s : S)
  : result S :=
  match l with
  | [] => Ok s
  | x :: l' => let* s' := body x s in for_each body l' s'
  end.

(** A list comprehension [[f(x) for x in l]] whose element may raise. *)
Fixpoint map_result {A B : Type} (f : A -> result B) (l : list A) : result (list B) :=
  match l with
  | [] => Ok []
  | x :: l' => let* y := f x in let* ys := map_result f l' in Ok (y :: ys)
  end.

(** [assert cond, msg]: the message is computed only when the test fails,
    and computing it may raise in its turn. *)
Definition assert_failure {A : Type} (msg : result string) : result A :=
  let* m := msg in Raise (AssertionError m).

Definition py_assert (cond : bool) (msg : result string) : result unit :=
  if cond then Ok tt else assert_failure msg.

(** Copying the elements of a list one after the other. *)
Definition copy_each {A : Type} (copy : A -> addr -> A * addr)
  : list A -> addr -> list A * addr :=
  fix go (l : list A) (m : addr) : list A * addr :=
    match l with
    | [] => ([], m)
    | y :: l' =>
        let (y', m1) := copy y m in
        let (l'', m2) := go l' m1 in
        (y' :: l'', m2)
    end.

(** [copy.deepcopy(x)]: immutable values are returned as they are; a list or
    a mapping is rebuilt as a new object (created before its elements are
    copied), element by element. *)
Fixpoint deepcopy (x : pyobj) (n : addr) : pyobj * addr :=
  match x with
  | PList _ items =>
      let (items', n') := copy_each deepcopy items (S n) in
      (PList n items', n')
  | PDict _ items =>
      let (items', n') :=
        copy_each (fun kv m => let (y, m') := deepcopy kv.2 m in ((kv.1, y), m'))
                  items (S n) in
      (PDict n items', n')
  | _ => (x, n)
  end.

(** The identities of the containers of a value. *)
Fixpoint addrs (x : pyobj) : list addr :=
  match x with
  | PList a items => a :: flat_map addrs items
  | PDict a items => a :: flat_map (fun kv => addrs kv.2) items
  | _ => []
  end.

(** A value with the identities forgotten: two values with the same
    [erase] have the same contents. *)
Fixpoint erase (x : pyobj) : pyobj :=
  match x with
  | PList _ items => PList 0 (map erase items)
  | PDict _ items => PDict 0 (map (fun kv => (kv.1, erase kv.2)) items)
  | _ => x
  end.

(** What a copy is: the counter only grows, the contents are those of the
    original, and every container of the copy is a new object. *)
Definition copy_ok (x y : pyobj) (n n' : addr) : Prop :=
  n <= n' /\ erase y = erase x /\ Forall (fun b => n <= b < n') (addrs y).

(** A dictionary key up to Python's equality of keys: [True] and [1] (and
    [False] and [0]) are one key. *)
Inductive hkey : Type :=
| HNone
| HNum (z : Z)
| HStr (s : string).

#[global] Instance hkey_eq_dec : EqDecision hkey.
Proof. solve_decision. Defined.

(** [hash(x)]: lists and mappings cannot be keys. *)
Definition as_key (x : pyobj) : result hkey :=
  match x with
  | PNone => Ok HNone
  | PBool b => Ok (HNum (Z.b2z b))
  | PInt z => Ok (HNum z)
  | PStr s => Ok (HStr s)
  | _ => Raise (TypeError ("unhashable type: '" +:+ type_name x +:+ "'"))
  end.

(** Element number [i] of the sequence handed to [dict.update], read as a
    key and a value. *)
Definition as_pair (i : nat) (x : pyobj) : result (pyobj * pyobj) :=
  match py_iter x with
  | Raise _ =>
      Raise (TypeError ("cannot convert dictionary update sequence element #"
                          +:+ pretty i +:+ " to a sequence"))
  | Ok [k; v] => Ok (k, v)
  | Ok l =>
      Raise (ValueError ("dictionary update sequence element #" +:+ pretty i
                           +:+ " has length " +:+ pretty (length l)
                           +:+ "; 2 is required"))
  end.

End Py.

(** ** The loader *)

Module MultiDep.
Import Py.

(** A task of the graph, as [taskgraph.task.Task]: the loader reads its
    [kind]; [label] and [attributes] tell tasks of one kind apart. *)
Record Task : Type := mkTask {
  kind : string;
  label : string;
  attributes : pydict string pyobj;
}.

(** What the dictionary a loader yields can hold: the dictionary of dependent
    tasks, a task, or a configuration value. *)
Inductive entry : Type :=
| EDeps (d : pydict string Task)
| ETask (t : Task)
| EObj (v : pyobj).

(** The dictionary [loader] yields for one group, which the schema at the
    head of the file describes. *)
Definition task_dict := pydict hkey entry.

(** [task.update(other)]: a mapping is stored key by key; any other object
    is iterated and each of its elements read as a pair of a key and a
    value. *)
Fixpoint update_pairs (i : nat) (elems : list pyobj) (task : task_dict)
  : result task_dict :=
  match elems with
  | [] => Ok task
  | e :: rest =>
      let* (k, v) := as_pair i e in
      let* hk := as_key k in
      update_pairs (S i) rest (dict_set hk (EObj v) task)
  end.

Definition py_update (task : task_dict) (other : pyobj) : result task_dict :=
  match other with
  | PDict _ items =>
      Ok (dict_update task (map (fun kv => (HStr kv.1, EObj kv.2)) items))
  | _ =>
      let* elems := py_iter other in
      update_pairs 0 elems task
  end.

(** [def assert_unique_members(kinds, error_msg=None)]: [error_msg] is
    [None] when the argument is left out. *)
Definition assert_unique_members (kinds : list string) (error_msg : option string)
  : result unit :=
  if decide (length kinds ≠ size (list_to_set kinds : gset string)) then
    Raise (Exception_ (match error_msg with
                       | Some s => MsgStr s
                       | None => MsgNone
                       end))
  else Ok tt.

(** [dep_tasks.values()] is a view of the dictionary: it can be iterated and
    measured, and it cannot be indexed. *)
Inductive dict_values_view (V : Type) : Type :=
| DictValues (d : pydict string V).
Arguments DictValues {V} d.

Definition view_getitem {V : Type} (view : dict_values_view V) (i : Z) : result V :=
  Raise (TypeError "'dict_values' object is not subscriptable").

(** [t.label] for [t] a key of [dep_tasks]: a string has no such attribute,
    so no label is ever obtained. *)
Definition str_label (t : string) : result Empty_set :=
  Raise (AttributeError "'str' object has no attribute 'label'").

(** The message of the second assertion of [get_primary_dep]:
    [[t.label for t in dep_tasks]] runs over the keys of the dictionary.
    The list it builds can only be the empty one. *)
Definition too_many_message (dep_tasks : pydict string Task) : result string :=
  let* labels := map_result str_label (dict_keys dep_tasks) in
  Ok "Too many primary dependent tasks in dep_tasks: []!".

(** Lines 86 to 92 of the source: the body of the inner loop, which updates
    [primary_dep]. *)
Definition inner_body (dep_tasks : pydict string Task) (primary_kind : pyobj)
    (dep_kind : string) (primary_dep : option Task) : result (option Task) :=
  if str_eq dep_kind primary_kind then
    let* _ := py_assert (bool_decide (primary_dep = None :> option Task))
                        (too_many_message dep_tasks) in
    let* t := dict_getitem dep_kind dep_tasks in
    Ok (Some t)
  else Ok primary_dep.

(** Line 85: the inner loop, [for dep_kind in dep_tasks]. *)
Definition outer_body (dep_tasks : pydict string Task) (primary_kind : pyobj)
  : option Task -> result (option Task) :=
  for_each (inner_body dep_tasks primary_kind) (dict_keys dep_tasks).

(** Lines 83 to 99 of the source: the two nested loops and the final test,
    over the kinds [primary_dependencies] iterates as. *)
Definition search_primary_dep (config : pydict string pyobj)
    (dep_tasks : pydict string Task) (primary_dependencies : list pyobj)
  : result Task :=
  let* primary_dep :=
    for_each (outer_body dep_tasks) primary_dependencies None in
  match primary_dep with
  | None =>
      let* pd := dict_getitem "primary-dependency" config in
      Raise (Exception_ (MsgFormat "Can't find dependency of {}: {}"
                                   [FObj pd; FMap config]))
  | Some t => Ok t
  end.

(** [def get_primary_dep(config, dep_tasks)].  A string is wrapped in a
    one-element list, which is never empty: the search then runs over that
    single element. *)
Definition get_primary_dep (config : pydict string pyobj)
    (dep_tasks : pydict string Task) : result Task :=
  let primary_dependencies := py_get "primary-dependency" config in
  if isinstance_str primary_dependencies then
    search_primary_dep config dep_tasks [primary_dependencies]
  else if negb (truthy primary_dependencies) then
    let* _ := py_assert (bool_decide (dict_len dep_tasks = 1%nat))
                        (Ok "Must define a primary-dependency!") in
    view_getitem (DictValues dep_tasks) 0
  else
    let* kinds := py_iter primary_dependencies in
    search_primary_dep config dep_tasks kinds.

(** Lines 53 to 58 of the source: the task built for one group [dep_tasks],
    once its kinds were checked. *)
Definition build_task (config : pydict string pyobj) (task_template : pyobj)
    (dep_tasks : list Task) : M task_dict :=
  let dep_tasks_per_kind := dict_of (map (fun dep => (kind dep, dep)) dep_tasks) in
  let task := [(HStr "dependent-tasks", EDeps dep_tasks_per_kind)] in
  let+ primary := lift (get_primary_dep config dep_tasks_per_kind) in
  let task := dict_set (HStr "primary-dependency") (ETask primary) task in
  if truthy task_template then
    let+ template := (fun n => Ok (deepcopy task_template n)) in
    lift (py_update task template)
  else ret task.

(** The body of the loop of [loader], for one group [dep_tasks]. *)
Definition loader_body (config : pydict string pyobj) (task_template : pyobj)
    (dep_tasks : list Task) : M task_dict :=
  let kinds := map kind dep_tasks in
  let+ _ := lift (assert_unique_members kinds
                    (Some "multi_dep.py should have filtered down to one task per kind")) in
  build_task config task_template dep_tasks.

(** The loop of [loader] over the groups: one task is yielded per group, and
    an exception, of the grouping or of the body, ends the generator. *)
Fixpoint loader_loop (config : pydict string pyobj) (task_template : pyobj)
    (groups : gen (list Task)) (n : addr) : gen task_dict :=
  match groups with
  | Stop => Stop
  | Throw e => Throw e
  | Yield dep_tasks rest =>
      match loader_body config task_template dep_tasks n with
      | Ok (task, n') => Yield task (loader_loop config task_template rest n')
      | Raise e => Throw e
      end
  end.

Section Loader.
(** [group_tasks] is imported from the package of the loader and is not
    part of this file: it is taken as given. *)
Variable group_tasks : pydict string pyobj -> list Task -> gen (list Task).

(** [def loader(kind, path, config, params, loaded_tasks)], a generator;
    [n] is the next free object identity when it starts. *)
Definition loader (kind_ path : string) (config params : pydict string pyobj)
    (loaded_tasks : list Task) (n : addr) : gen task_dict :=
  let task_template := py_get "task-template" config in
  loader_loop config task_template (group_tasks config loaded_tasks) n.
End Loader.

(** *** Notions the properties of the loader are stated with *)

(** A dictionary of tasks is keyed by kind when every key is the kind of the
    task stored under it. *)
Definition keyed_by_kind (dep_tasks : pydict string Task) : Prop :=
  Forall (fun kt => kind kt.2 = kt.1) dep_tasks.

(** The dependency a listed kind matches, if any: only a string can be equal
    to a key of [dep_tasks]. *)
Definition dep_of (dep_tasks : pydict string Task) (primary_kind : pyobj)
  : option Task :=
  match primary_kind with
  | PStr k => dict_get k dep_tasks
  | _ => None
  end.

(** The dependencies the entries of the list match, in the order of the
    list; its head is the dependency of the first kind that has a match. *)
Fixpoint matches (primary_dependencies : list pyobj)
    (dep_tasks : pydict string Task) : list Task :=
  match primary_dependencies with
  | [] => []
  | primary_kind :: rest =>
      match dep_of dep_tasks primary_kind with
      | Some t => t :: matches rest dep_tasks
      | None => matches rest dep_tasks
      end
  end.

(** The kinds a ["primary-dependency"] value lists: the string itself, or
    the entries of the list.  The value is specified when it lists some. *)
Definition listed_kinds (pd : pyobj) : list pyobj :=
  match pd with
  | PStr _ => [pd]
  | PList _ items => items
  | _ => []
  end.

(** The exception of line 94. *)
Definition cant_find (config : pydict string pyobj) (pd : pyobj) : exn :=
  Exception_ (MsgFormat "Can't find dependency of {}: {}" [FObj pd; FMap config]).

(** The exception of [assert_unique_members] as [loader] calls it. *)
Definition not_unique : exn :=
  Exception_ (MsgStr "multi_dep.py should have filtered down to one task per kind").

(** An exception without the objects its message is formatted with: the
    class and the text of the message remain. *)
Definition raise_site (e : exn) : exn :=
  match e with
  | Exception_ (MsgFormat template _) => Exception_ (MsgFormat template [])
  | _ => e
  end.

(** Two calls have the same outcome: the same value returned, or the same
    exception raised with the same message text. *)
Definition same_outcome {A : Type} (r1 r2 : result A) : Prop :=
  match r1, r2 with
  | Ok a1, Ok a2 => a1 = a2
  | Raise e1, Raise e2 => raise_site e1 = raise_site e2
  | _, _ => False
  end.

(** The dictionary of dependent tasks [loader] builds for a group. *)
Definition dependent_tasks (dep_tasks : list Task) : pydict string Task :=
  dict_of (map (fun dep => (kind dep, dep)) dep_tasks).

(** The task [loader] computes for a group before the template is applied. *)
Definition computed_task (dep_tasks : list Task) (primary : Task) : task_dict :=
  [(HStr "dependent-tasks", EDeps (dependent_tasks dep_tasks));
   (HStr "primary-dependency", ETask primary)].

(** A template under which the computed ["dependent-tasks"] entry stays:
    none (or an empty one), or a mapping that does not define that key. *)
Definition keeps_dependent_tasks (task_template : pyobj) : Prop :=
  truthy task_template = false
  \/ exists a items, task_template = PDict a items
                     /\ dict_get "dependent-tasks" items = None.

End MultiDep.

(** ** Tasks and configurations used in the examples *)

Module Examples.
Import Py MultiDep.

Definition build : Task := mkTask "build" "build-debug" [].
Definition build_release : Task := mkTask "build" "build-release" [].
Definition signing : Task := mkTask "signing" "signing-debug" [].

Definition one_dep : pydict string Task := [("build", build)].
Definition two_deps : pydict string Task := [("build", build); ("signing", signing)].

Definition config_none : pydict string pyobj := [("group-by", PStr "build-type")].
Definition config_str : pydict string pyobj :=
  [("group-by", PStr "build-type"); ("primary-dependency", PStr "build")].
Definition config_one : pydict string pyobj :=
  [("group-by", PStr "build-type"); ("primary-dependency", PList 1 [PStr "build"])].
Definition config_list : pydict string pyobj :=
  [("group-by", PStr "build-type");
   ("primary-dependency", PList 1 [PStr "signing"; PStr "build"])].
Definition config_missing : pydict string pyobj :=
  [("group-by", PStr "build-type"); ("primary-dependency", PStr "beetmover")].

Definition template : list (string * pyobj) :=
  [("description", PStr "Sign the build");
   ("primary-dependency", PStr "from-template");
   ("worker", PDict 3 [("chain-of-trust", PBool true); ("scopes", PList 4 [])])].
Definition config_template : pydict string pyobj :=
  [("primary-dependency", PStr "build"); ("task-template", PDict 2 template)].

(** A grouping that hands the loaded tasks over as one group. *)
Definition one_group (config : pydict string pyobj) (tasks : list Task)
  : gen (list Task) :=
  Yield tasks Stop.

(** The task yielded for the group of [build] and [signing] under
    [config_template], the objects below 10 being in use. *)
Definition templated_task : task_dict :=
  [(HStr "dependent-tasks", EDeps two_deps);
   (HStr "primary-dependency", EObj (PStr "from-template"));
   (HStr "description", EObj (PStr "Sign the build"));
   (HStr "worker",
    EObj (PDict 11 [("chain-of-trust", PBool true); ("scopes", PList 12 [])]))].

End Examples.

(** ** The schema of the yielded tasks, and further notions *)

Module Schema.
Import Py MultiDep.

(** What [schema] asks of the value of a key: a [Task], or a dictionary
    [{str: Task}]. *)
Inductive validator : Type :=
| IsTask
| IsTaskDict.

(** Lines 15 to 23 of the source: the two keys, both [Required]. *)
Definition schema : list (string * validator) :=
  [("primary-dependency", IsTask); ("dependent-tasks", IsTaskDict)].

Definition matches_validator (v : validator) (e : entry) : bool :=
  match v, e with
  | IsTask, ETask _ => true
  | IsTaskDict, EDeps _ => true
  | _, _ => false
  end.

(** Validation as the schema library does it by default: every [Required]
    key is present and its value is of the stated type, and the dictionary
    has no key that the schema does not list. *)
Definition required_ok (s : list (string * validator)) (task : task_dict) : bool :=
  forallb (fun kv => match dict_get (HStr kv.1) task with
                     | Some e => matches_validator kv.2 e
                     | None => false
                     end) s.

Definition no_extra_keys (s : list (string * validator)) (task : task_dict) : bool :=
  forallb (fun hk => match hk with
                     | HStr k => bool_decide (k ∈ map fst s)
                     | _ => false
                     end) (dict_keys task).

Definition validate (s : list (string * validator)) (task : task_dict) : bool :=
  required_ok s task && no_extra_keys s task.

(** The kinds the search of [get_primary_dep] runs over, for a value of
    ["primary-dependency"]: the string itself, the elements a non-empty
    object iterates as, and none for an empty or absent value. *)
Definition searched_kinds (pd : pyobj) : list pyobj :=
  if isinstance_str pd then [pd]
  else if truthy pd then
    match py_iter pd with
    | Ok kinds => kinds
    | Raise _ => []
    end
  else [].

(** A template under which both computed entries stay: none (or an empty
    one), or a mapping that defines neither of the two keys. *)
Definition keeps_computed (task_template : pyobj) : Prop :=
  truthy task_template = false
  \/ exists a items, task_template = PDict a items
                     /\ dict_get "dependent-tasks" items = None
                     /\ dict_get "primary-dependency" items = None.

(** The identities of the lists and mappings of the configuration values a
    yielded task holds, which are the values [task.update] stored in it.
    The tasks under the two computed entries are the tasks of the group
    themselves: [loader] does not copy them, several groups can hold the
    same task, and what a task holds is not counted here. *)
Definition entry_config_addrs (e : entry) : list addr :=
  match e with
  | EObj v => addrs v
  | _ => []
  end.

Definition config_addrs (task : task_dict) : list addr :=
  flat_map (fun kv => entry_config_addrs kv.2) task.

(** The exceptions [get_primary_dep] raises. *)
Definition must_define : exn := AssertionError "Must define a primary-dependency!".
Definition not_subscriptable : exn :=
  TypeError "'dict_values' object is not subscriptable".
Definition no_label : exn := AttributeError "'str' object has no attribute 'label'".
Definition not_iterable (pd : pyobj) : exn :=
  TypeError ("'" +:+ type_name pd +:+ "' object is not iterable").

End Schema.

(** ** Further examples *)

Module MoreExamples.
Import Py MultiDep Examples.

(** A grouping that makes two groups: all the loaded tasks, then the build
    alone. *)
Definition two_groups (config : pydict string pyobj) (tasks : list Task)
  : gen (list Task) :=
  Yield tasks (Yield [build] Stop).

(** The task yielded for the second group of [two_groups] under
    [config_template], after [templated_task]. *)
Definition second_templated_task : task_dict :=
  [(HStr "dependent-tasks", EDeps one_dep);
   (HStr "primary-dependency", EObj (PStr "from-template"));
   (HStr "description", EObj (PStr "Sign the build"));
   (HStr "worker",
    EObj (PDict 14 [("chain-of-trust", PBool true); ("scopes", PList 15 [])]))].

(** A grouping that fails after its first group. *)
Definition failing_groups (config : pydict string pyobj) (tasks : list Task)
  : gen (list Task) :=
  Yield tasks (Throw (KeyError "group-by")).

(** A template that leaves the two computed entries alone. *)
Definition config_worker : pydict string pyobj :=
  [("primary-dependency", PStr "build");
   ("task-template", PDict 2 [("worker", PDict 3 [("scopes", PList 4 [])])])].

Definition worker_task : task_dict :=
  [(HStr "dependent-tasks", EDeps two_deps);
   (HStr "primary-dependency", ETask build);
   (HStr "worker", EObj (PDict 11 [("scopes", PList 12 [])]))].

End MoreExamples.

(** ** Facts about dictionaries, loops and copies *)

Module PyFacts.
Import Py.

Section DictFacts.
Context {K V : Type} `{EqDecision K}.
Implicit Types (d : pydict K V) (k : K) (v : V).

#[global] Instance dict_wf_dec d : Decision (dict_wf d).
Proof. unfold dict_wf. apply _. Defined.

Lemma dict_get_set_eq d k v : dict_get k (dict_set k v d) = Some v.
Proof.
  induction d as [|[k' v'] d IH]; simpl.
  - by rewrite decide_True.
  - destruct (decide (k = k')) as [->|Hne]; simpl.
    + by rewrite decide_True.
    + by rewrite decide_False.
Qed.

Lemma dict_get_set_ne d k k' v :
  k ≠ k' -> dict_get k' (dict_set k v d) = dict_get k' d.
Proof.
  intros Hne. induction d as [|[k0 v0] d IH]; simpl.
  - by rewrite decide_False.
  - destruct (decide (k = k0)) as [->|Hne0]; simpl.
    + by rewrite !decide_False.
    + destruct (decide (k' = k0)); auto.
Qed.

Lemma dict_get_None d k : dict_get k d = None <-> k ∉ dict_keys d.
Proof.
  unfold dict_keys. induction d as [|[k' v'] d IH]; simpl.
  - split; [intros _; apply not_elem_of_nil | done].
  - rewrite not_elem_of_cons. destruct (decide (k = k')) as [->|Hne].
    + split; [done | intros [? _]; done].
    + rewrite IH. tauto.
Qed.

Lemma dict_get_Some_elem d k v : dict_get k d = Some v -> (k, v) ∈ d.
Proof.
  induction d as [|[k' v'] d IH]; simpl; [done|].
  destruct (decide (k = k')) as [->|Hne].
  - intros [= ->]. apply list_elem_of_here.
  - intros Hg. apply list_elem_of_further. auto.
Qed.

Lemma dict_get_elem d k v : dict_wf d -> (k, v) ∈ d -> dict_get k d = Some v.
Proof.
  unfold dict_wf, dict_keys.
  induction d as [|[k' v'] d IH]; simpl; intros Hwf Hin.
  - by apply elem_of_nil in Hin.
  - apply NoDup_cons in Hwf as [Hk' Hwf].
    apply elem_of_cons in Hin as [[= -> ->]|Hin].
    + by rewrite decide_True.
    + rewrite decide_False; [auto|].
      intros ->. apply Hk'. apply list_elem_of_fmap. by exists (k', v).
Qed.

Lemma dict_keys_set d k v :
  dict_keys (dict_set k v d)
  = if decide (k ∈ dict_keys d) then dict_keys d else dict_keys d ++ [k].
Proof.
  unfold dict_keys. induction d as [|[k' v'] d IH]; simpl; [done|].
  destruct (decide (k = k')) as [->|Hne]; simpl.
  - destruct (decide (k' ∈ k' :: map fst d)) as [|Hn]; [done|].
    exfalso. apply Hn, list_elem_of_here.
  - rewrite IH.
    destruct (decide (k ∈ map fst d)) as [Hin|Hin],
             (decide (k ∈ k' :: map fst d)) as [Hin'|Hin']; try done.
    + exfalso. apply Hin'. by apply list_elem_of_further.
    + exfalso. apply elem_of_cons in Hin' as [?|?]; done.
Qed.

Lemma dict_wf_set d k v : dict_wf d -> dict_wf (dict_set k v d).
Proof.
  unfold dict_wf. rewrite dict_keys_set. intros Hwf.
  destruct (decide (k ∈ dict_keys d)); [done|].
  apply NoDup_app. split_and!; [done | | apply NoDup_singleton].
  intros x Hx Hk. apply list_elem_of_singleton in Hk. by subst.
Qed.

Lemma dict_wf_update d other : dict_wf d -> dict_wf (dict_update d other).
Proof.
  unfold dict_update. revert d.
  induction other as [|[k v] other IH]; simpl; intros d Hwf; [done|].
  apply IH. by apply dict_wf_set.
Qed.

(** Storing entries with new, pairwise distinct keys appends them. *)
Lemma dict_update_fresh d other :
  NoDup (dict_keys other) ->
  (forall k, k ∈ dict_keys other -> k ∉ dict_keys d) ->
  dict_update d other = d ++ other.
Proof.
  unfold dict_update. revert d.
  induction other as [|[k v] other IH]; simpl; intros d Hnd Hfresh.
  - by rewrite app_nil_r.
  - apply NoDup_cons in Hnd as [Hk Hnd].
    assert (Hset : dict_set k v d = d ++ [(k, v)]).
    { assert (Hkd : k ∉ dict_keys d) by (apply Hfresh, list_elem_of_here).
      clear -Hkd. induction d as [|[k' v'] d IH]; simpl; [done|].
      unfold dict_keys in Hkd. simpl in Hkd.
      apply not_elem_of_cons in Hkd as [Hne Hkd].
      rewrite decide_False; [|done]. by rewrite IH. }
    rewrite Hset, IH; [by rewrite <- app_assoc | done |].
    intros k0 Hk0. unfold dict_keys. rewrite map_app. simpl.
    rewrite not_elem_of_app. split.
    + apply Hfresh. by apply list_elem_of_further.
    + rewrite list_elem_of_singleton. intros ->. done.
Qed.

Lemma dict_of_nodup (kvs : list (K * V)) :
  NoDup (map fst kvs) -> dict_of kvs = kvs.
Proof.
  intros Hnd. unfold dict_of. rewrite dict_update_fresh; [done..|].
  intros k _. apply not_elem_of_nil.
Qed.

(** Looking up the result of [update]: the entry of [other] wins. *)
Lemma dict_get_update d other k :
  dict_wf other ->
  dict_get k (dict_update d other)
  = match dict_get k other with
    | Some v => Some v
    | None => dict_get k d
    end.
Proof.
  unfold dict_update, dict_wf, dict_keys. revert d.
  induction other as [|[k' v'] other IH]; simpl; intros d Hwf; [done|].
  apply NoDup_cons in Hwf as [Hk' Hwf]. rewrite IH by done.
  destruct (decide (k = k')) as [->|Hne].
  - assert (Hnone : dict_get k' other = None) by by apply dict_get_None.
    rewrite Hnone. apply dict_get_set_eq.
  - destruct (dict_get k other); [done|]. apply dict_get_set_ne. congruence.
Qed.
(** Keys that [other] does not hold are not touched by [update]. *)
Lemma dict_get_update_notin d other k :
  k ∉ dict_keys other -> dict_get k (dict_update d other) = dict_get k d.
Proof.
  unfold dict_update, dict_keys. revert d.
  induction other as [|[k' v'] other IH]; simpl; intros d Hk; [done|].
  apply not_elem_of_cons in Hk as [Hne Hk].
  rewrite IH by done. apply dict_get_set_ne. congruence.
Qed.
End DictFacts.

(** Induction on values, with the hypothesis for every element of a list
    and every value of a mapping. *)
Lemma pyobj_ind (P : pyobj -> Prop) :
  P PNone ->
  (forall b, P (PBool b)) ->
  (forall z, P (PInt z)) ->
  (forall s, P (PStr s)) ->
  (forall a items, Forall P items -> P (PList a items)) ->
  (forall a items, Forall (fun kv => P kv.2) items -> P (PDict a items)) ->
  forall x, P x.
Proof.
  intros HN HB HI HS HL HD. fix IH 1.
  intros [ | b | z | s | a items | a items];
    [apply HN | apply HB | apply HI | apply HS | apply HL | apply HD].
  - induction items as [|y items IHitems]; constructor; [apply IH | exact IHitems].
  - induction items as [|[k y] items IHitems]; constructor; [apply IH | exact IHitems].
Qed.

Lemma range_weaken (n m n' m' : addr) (l : list addr) :
  n <= m -> m' <= n' ->
  Forall (fun b => m <= b < m') l -> Forall (fun b => n <= b < n') l.
Proof.
  intros Hn Hm Hl. eapply Forall_impl; [exact Hl|]. intros b Hb. simpl in Hb. lia.
Qed.

Lemma deepcopy_spec x n :
  exists y n', deepcopy x n = (y, n') /\ copy_ok x y n n'.
Proof.
  revert n. induction x as [ | b | z | s | a items IH | a items IH]
    using pyobj_ind; intros n;
    try (eexists _, _; split; [reflexivity|]; split_and!; simpl; auto; done).
  - assert (Hitems : forall m, exists items' m',
               copy_each deepcopy items m = (items', m')
               /\ m <= m' /\ map erase items' = map erase items
               /\ Forall (fun b => m <= b < m') (flat_map addrs items')).
    { induction IH as [|y items Hy _ IHitems]; intros m.
      - exists [], m. simpl. split_and!; auto.
      - destruct (Hy m) as (y' & m1 & Ey & Hle1 & Her1 & Hfr1).
        destruct (IHitems m1) as (l' & m2 & El & Hle2 & Her2 & Hfr2).
        exists (y' :: l'), m2. simpl. rewrite Ey. fold (copy_each deepcopy).
        rewrite El. split_and!; [done | lia | by rewrite Her1, Her2 |].
        apply Forall_app. split.
        + eapply range_weaken; [| |exact Hfr1]; lia.
        + eapply range_weaken; [| |exact Hfr2]; lia. }
    destruct (Hitems (S n)) as (items' & n' & E & Hle & Her & Hfr).
    exists (PList n items'), n'. simpl. rewrite E.
    split; [done|]. split_and!; [lia | simpl; by rewrite Her |].
    simpl. constructor; [lia|]. eapply range_weaken; [| |exact Hfr]; lia.
  - set (copy := fun (kv : string * pyobj) m =>
                   let (y, m') := deepcopy kv.2 m in ((kv.1, y), m')).
    assert (Hitems : forall m, exists items' m',
               copy_each copy items m = (items', m')
               /\ m <= m'
               /\ map (fun kv => (kv.1, erase kv.2)) items'
                  = map (fun kv => (kv.1, erase kv.2)) items
               /\ Forall (fun b => m <= b < m')
                         (flat_map (fun kv => addrs kv.2) items')).
    { induction IH as [|[k y] items Hy _ IHitems]; intros m.
      - exists [], m. simpl. split_and!; auto.
      - destruct (Hy m) as (y' & m1 & Ey & Hle1 & Her1 & Hfr1).
        destruct (IHitems m1) as (l' & m2 & El & Hle2 & Her2 & Hfr2).
        exists ((k, y') :: l'), m2. simpl. unfold copy at 1. simpl in *.
        rewrite Ey. fold (copy_each copy). rewrite El.
        split_and!; [done | lia | by rewrite Her1, Her2 |].
        apply Forall_app. split.
        + eapply range_weaken; [| |exact Hfr1]; lia.
        + eapply range_weaken; [| |exact Hfr2]; lia. }
    destruct (Hitems (S n)) as (items' & n' & E & Hle & Her & Hfr).
    exists (PDict n items'), n'. simpl. fold copy. rewrite E.
    split; [done|]. split_and!; [lia | simpl; by rewrite Her |].
    simpl. constructor; [lia|]. eapply range_weaken; [| |exact Hfr]; lia.
Qed.

(** The copy of a mapping: a new mapping with the same keys, each holding a
    copy of the value of the original. *)
Lemma deepcopy_dict a items n :
  exists items' n',
    deepcopy (PDict a items) n = (PDict n items', n')
    /\ n < n'
    /\ dict_keys items' = dict_keys items
    /\ forall k v, dict_get k items = Some v ->
         exists v', dict_get k items' = Some v'
                    /\ erase v' = erase v
                    /\ Forall (fun b => n <= b < n') (addrs v').
Proof.
  destruct (deepcopy_spec (PDict a items) n) as (y & n' & E & Hle & Her & Hfr).
  assert (exists items', y = PDict n items') as [items' ->].
  { simpl in E. destruct (copy_each _ items (S n)). injection E as <- _. eauto. }
  exists items', n'. simpl in Her, Hfr. injection Her as Her.
  apply Forall_cons in Hfr as [Hn Hfr].
  split_and!; [done | lia | |].
  - unfold dict_keys. clear -Her. revert items' Her.
    induction items as [|[k v] items IH]; intros [|[k' v'] items'] Her;
      simpl in *; try done.
    injection Her as -> _ Her. f_equal. by apply IH.
  - clear E Hle Hn. revert items' Her Hfr.
    induction items as [|[k0 v0] items IH]; intros [|[k' v'] items'] Her Hfr k v Hget;
      simpl in *; try done.
    injection Her as -> Hv Her. apply Forall_app in Hfr as [Hfr1 Hfr2].
    destruct (decide (k = k0)) as [->|Hne].
    + injection Hget as <-. by exists v'.
    + by apply IH.
Qed.
End PyFacts.

(** ** Facts about the loader *)

Module MultiDepFacts.
Import Py PyFacts MultiDep.

(** Closes a decidable goal on concrete data by evaluating its decision. *)
Ltac by_compute := refine (bool_decide_unpack _ _); vm_compute; exact I.

(** *** The uniqueness check *)

Lemma size_list_to_set_le (l : list string) :
  size (list_to_set l : gset string) <= length l.
Proof.
  induction l as [|x l IH]; simpl; [done|].
  rewrite size_union_alt, size_singleton.
  assert (Hsub : size (list_to_set l ∖ {[x]} : gset string)
                 <= size (list_to_set l : gset string)).
  { apply subseteq_size. intros y Hy. apply elem_of_difference in Hy. tauto. }
  lia.
Qed.

Lemma length_size_NoDup (l : list string) :
  length l = size (list_to_set l : gset string) <-> NoDup l.
Proof.
  split; [|intros Hl; by rewrite size_list_to_set].
  induction l as [|x l IH]; simpl; intros Hlen; [constructor|].
  destruct (decide (x ∈ l)) as [Hin|Hin].
  - exfalso.
    assert (Heq : ({[x]} ∪ list_to_set l : gset string) = list_to_set l).
    { apply subseteq_union_1_L. set_solver. }
    rewrite Heq in Hlen. pose proof (size_list_to_set_le l). lia.
  - rewrite size_union, size_singleton in Hlen by set_solver.
    constructor; [done|]. apply IH. lia.
Qed.

Lemma assert_unique_members_ok kinds error_msg :
  NoDup kinds -> assert_unique_members kinds error_msg = Ok tt.
Proof.
  intros Hnd. unfold assert_unique_members.
  apply length_size_NoDup in Hnd. by rewrite decide_False by (intros ?; done).
Qed.

Lemma assert_unique_members_raise kinds error_msg :
  ~ NoDup kinds ->
  assert_unique_members kinds error_msg
  = Raise (Exception_ (match error_msg with
                       | Some s => MsgStr s
                       | None => MsgNone
                       end)).
Proof.
  intros Hnd. unfold assert_unique_members.
  rewrite decide_True; [done|]. intros Hlen. by apply Hnd, length_size_NoDup.
Qed.

(** *** The search for the primary dependency *)

Lemma bind_assert_failure {A B : Type} (msg : result string) (k : A -> result B) :
  bind (assert_failure msg) k = assert_failure msg.
Proof. unfold assert_failure, bind. by destruct msg. Qed.

Lemma assert_failure_raises {A : Type} (msg : result string) :
  exists e, assert_failure (A:=A) msg = Raise e.
Proof. unfold assert_failure, bind. destruct msg; eauto. Qed.

(** The failing assertion of the search raises an [AssertionError] or, while
    its message is computed, an [AttributeError]. *)
Lemma too_many_failure {A : Type} (dep_tasks : pydict string Task) :
  assert_failure (A:=A) (too_many_message dep_tasks)
  = match dep_tasks with
    | [] => Raise (AssertionError "Too many primary dependent tasks in dep_tasks: []!")
    | _ :: _ => Raise (AttributeError "'str' object has no attribute 'label'")
    end.
Proof. by destruct dep_tasks. Qed.

Section Search.
Variable dep_tasks : pydict string Task.

#[local] Abbreviation inner_body := (inner_body dep_tasks).
#[local] Abbreviation outer_body := (outer_body dep_tasks).

Lemma inner_no_match primary_kind ks acc :
  (forall k, k ∈ ks -> str_eq k primary_kind = false) ->
  for_each (inner_body primary_kind) ks acc = Ok acc.
Proof.
  induction ks as [|k ks IH]; simpl; intros Hno; [done|].
  unfold inner_body at 1. rewrite Hno by apply list_elem_of_here. simpl.
  apply IH. intros k' Hk'. apply Hno. by apply list_elem_of_further.
Qed.

Lemma inner_match k t ks acc :
  NoDup ks -> k ∈ ks -> dict_get k dep_tasks = Some t ->
  for_each (inner_body (PStr k)) ks acc
  = match acc with
    | None => Ok (Some t)
    | Some _ => assert_failure (too_many_message dep_tasks)
    end.
Proof.
  intros Hnd Hin Hget. revert acc.
  induction ks as [|k0 ks IH]; intros acc; [by apply elem_of_nil in Hin|].
  apply NoDup_cons in Hnd as [Hk0 Hnd]. simpl. unfold inner_body at 1. simpl.
  destruct (decide (k0 = k)) as [->|Hne].
  - rewrite bool_decide_eq_true_2 by done. destruct acc as [t0|]; simpl.
    + by rewrite !bind_assert_failure.
    + unfold dict_getitem. rewrite Hget. simpl.
      apply inner_no_match. intros k' Hk'. simpl.
      apply bool_decide_eq_false_2. intros ->. done.
  - rewrite bool_decide_eq_false_2 by done. simpl. apply IH; [done|].
    apply elem_of_cons in Hin as [->|Hin]; done.
Qed.

Hypothesis dep_tasks_wf : dict_wf dep_tasks.

Lemma outer_body_spec primary_kind acc :
  outer_body primary_kind acc
  = match dep_of dep_tasks primary_kind, acc with
    | None, _ => Ok acc
    | Some t, None => Ok (Some t)
    | Some _, Some _ => assert_failure (too_many_message dep_tasks)
    end.
Proof.
  unfold outer_body.
  destruct (dep_of dep_tasks primary_kind) as [t|] eqn:Hdep.
  - destruct primary_kind as [ | | |k| | ]; simpl in Hdep; try done.
    rewrite (inner_match k t); [by destruct acc | done | | done].
    destruct (decide (k ∈ dict_keys dep_tasks)) as [|Hk]; [done|].
    apply dict_get_None in Hk. congruence.
  - apply inner_no_match. intros k Hk.
    destruct primary_kind as [ | | |k'| | ]; simpl in *; try done.
    apply bool_decide_eq_false_2. intros ->.
    apply dict_get_None in Hdep. done.
Qed.

Lemma outer_loop_spec primary_dependencies acc :
  for_each outer_body primary_dependencies acc
  = match matches primary_dependencies dep_tasks, acc with
    | [], _ => Ok acc
    | [t], None => Ok (Some t)
    | _, _ => assert_failure (too_many_message dep_tasks)
    end.
Proof.
  revert acc.
  induction primary_dependencies as [|pk l IH]; intros acc; simpl; [done|].
  rewrite outer_body_spec.
  destruct (dep_of dep_tasks pk) as [t|]; simpl; [|apply IH].
  destruct acc as [t0|]; simpl.
  - rewrite bind_assert_failure. by destruct (matches l dep_tasks).
  - rewrite IH. by destruct (matches l dep_tasks) as [|? [|? ?]].
Qed.

(** The search returns a dependency exactly when one entry of the list
    matches; it does not find any when none matches; and its second
    assertion fails when several do. *)
Lemma search_primary_dep_spec config primary_dependencies :
  search_primary_dep config dep_tasks primary_dependencies
  = match matches primary_dependencies dep_tasks with
    | [] =>
        let* pd := dict_getitem "primary-dependency" config in
        Raise (cant_find config pd)
    | [t] => Ok t
    | _ => assert_failure (too_many_message dep_tasks)
    end.
Proof.
  unfold search_primary_dep. rewrite outer_loop_spec.
  destruct (matches primary_dependencies dep_tasks) as [|t [|t' l]]; simpl;
    [done | done |].
  by rewrite bind_assert_failure.
Qed.
End Search.

Lemma py_get_Some (config : pydict string pyobj) k pd :
  py_get k config = pd -> pd <> PNone -> dict_getitem k config = Ok pd.
Proof.
  unfold py_get, dict_getitem. destruct (dict_get k config); congruence.
Qed.

Lemma elem_of_dict_values (dep_tasks : pydict string Task) t :
  t ∈ dict_values dep_tasks <-> exists k, (k, t) ∈ dep_tasks.
Proof.
  unfold dict_values. rewrite list_elem_of_fmap. split.
  - intros ([k t'] & -> & Hin). by exists k.
  - intros (k & Hin). by exists (k, t).
Qed.

Lemma keyed_by_kind_elem dep_tasks k t :
  keyed_by_kind dep_tasks -> (k, t) ∈ dep_tasks -> kind t = k.
Proof.
  unfold keyed_by_kind. rewrite Forall_forall. intros Hk Hin. exact (Hk _ Hin).
Qed.

(** The value of ["primary-dependency"] decides which search is run. *)
Lemma get_primary_dep_str config dep_tasks s :
  py_get "primary-dependency" config = PStr s ->
  get_primary_dep config dep_tasks = search_primary_dep config dep_tasks [PStr s].
Proof. intros Hpd. unfold get_primary_dep. by rewrite Hpd. Qed.

Lemma get_primary_dep_nonempty_list config dep_tasks a l :
  py_get "primary-dependency" config = PList a l -> l <> [] ->
  get_primary_dep config dep_tasks = search_primary_dep config dep_tasks l.
Proof.
  intros Hpd Hl. unfold get_primary_dep. rewrite Hpd. simpl.
  by destruct l.
Qed.

Lemma get_primary_dep_listed config dep_tasks pd :
  py_get "primary-dependency" config = pd -> listed_kinds pd <> [] ->
  get_primary_dep config dep_tasks
  = search_primary_dep config dep_tasks (listed_kinds pd).
Proof.
  intros Hpd Hl. destruct pd as [ | | |s|a l| ]; simpl in Hl; try done.
  - by apply get_primary_dep_str.
  - by apply (get_primary_dep_nonempty_list _ _ a).
Qed.

(** C2: when ["primary-dependency"] is a string [s] and the dictionary of
    dependencies, keyed by kind, holds a task of kind [s], [get_primary_dep]
    returns a task of the dictionary whose kind is [s], and it is the only
    such task. *)
Theorem get_primary_dep_string config dep_tasks s :
  py_get "primary-dependency" config = PStr s ->
  dict_wf dep_tasks ->
  keyed_by_kind dep_tasks ->
  (exists t0, t0 ∈ dict_values dep_tasks /\ kind t0 = s) ->
  exists t, get_primary_dep config dep_tasks = Ok t
            /\ t ∈ dict_values dep_tasks
            /\ kind t = s
            /\ forall t', t' ∈ dict_values dep_tasks -> kind t' = s -> t' = t.
Proof.
  intros Hpd Hwf Hkeyed (t0 & Hin & Hkind).
  assert (Hget : forall t, t ∈ dict_values dep_tasks -> kind t = s ->
                           dict_get s dep_tasks = Some t).
  { intros t Ht Hk. apply elem_of_dict_values in Ht as [k Ht].
    pose proof (keyed_by_kind_elem _ _ _ Hkeyed Ht) as Hkt.
    apply dict_get_elem; [done|]. congruence. }
  exists t0. split_and!; [|done|done|].
  - rewrite (get_primary_dep_str _ _ s), search_primary_dep_spec by done.
    simpl. by rewrite (Hget t0).
  - intros t' Ht' Hk'. pose proof (Hget t0 Hin Hkind). pose proof (Hget t' Ht' Hk').
    congruence.
Qed.

Lemma get_primary_dep_string_witness :
  exists t, get_primary_dep Examples.config_str Examples.two_deps = Ok t
            /\ t ∈ dict_values Examples.two_deps
            /\ kind t = "build"
            /\ forall t', t' ∈ dict_values Examples.two_deps ->
                          kind t' = "build" -> t' = t.
Proof.
  apply (get_primary_dep_string Examples.config_str Examples.two_deps "build").
  - reflexivity.
  - by_compute.
  - unfold keyed_by_kind. repeat constructor.
  - exists Examples.build. split; [apply list_elem_of_here | reflexivity].
Defined.

(** What the code does with a list: when exactly one of its entries has a
    matching dependency, [get_primary_dep] returns that dependency, which is
    the one of the first kind of the list that has a match; when two or more
    entries have a matching dependency the call raises and no task is
    returned. *)
Theorem get_primary_dep_list config dep_tasks a l :
  py_get "primary-dependency" config = PList a l ->
  dict_wf dep_tasks ->
  (length (matches l dep_tasks) = 1 ->
   exists t, head (matches l dep_tasks) = Some t
             /\ get_primary_dep config dep_tasks = Ok t)
  /\ (2 <= length (matches l dep_tasks) ->
      exists e, get_primary_dep config dep_tasks = Raise e).
Proof.
  intros Hpd Hwf.
  assert (Hl : matches l dep_tasks <> [] ->
               get_primary_dep config dep_tasks
               = search_primary_dep config dep_tasks l).
  { intros Hm. apply (get_primary_dep_nonempty_list _ _ a); [done|].
    intros ->. done. }
  split; intros Hlen.
  - destruct (matches l dep_tasks) as [|t [|t' m]] eqn:Hm; simpl in Hlen; try lia.
    exists t. split; [done|].
    rewrite Hl by done. rewrite search_primary_dep_spec by done. by rewrite Hm.
  - destruct (matches l dep_tasks) as [|t [|t' m]] eqn:Hm; simpl in Hlen; try lia.
    rewrite Hl by done. rewrite search_primary_dep_spec by done. rewrite Hm.
    apply assert_failure_raises.
Qed.

Lemma get_primary_dep_list_witness :
  exists t, head (matches [PStr "signing"; PStr "build"] Examples.one_dep) = Some t
            /\ get_primary_dep Examples.config_list Examples.one_dep = Ok t.
Proof.
  refine (proj1 (get_primary_dep_list Examples.config_list Examples.one_dep 1
                   [PStr "signing"; PStr "build"] _ _) _).
  - reflexivity.
  - by_compute.
  - reflexivity.
Defined.

(** C3 against the code: the docstring of [get_primary_dep] says that, for
    a list, "the first kind in that list with a matching dep is the primary
    dependency".  With the list [["signing", "build"]] and a dependency of
    each of the two kinds, the first listed kind with a match is
    ["signing"]; the loops do not stop there, the second match fails the
    assertion [primary_dep is None], and the call raises (an
    [AttributeError], from [t.label] in the message of that assertion)
    instead of returning the signing task. *)
Lemma get_primary_dep_list_two_matches :
  py_get "primary-dependency" Examples.config_list
  = PList 1 [PStr "signing"; PStr "build"]
  /\ dict_wf Examples.two_deps
  /\ head (matches [PStr "signing"; PStr "build"] Examples.two_deps)
     = Some Examples.signing
  /\ get_primary_dep Examples.config_list Examples.two_deps
     = Raise (AttributeError "'str' object has no attribute 'label'").
Proof. split_and!; [reflexivity | by_compute | reflexivity | reflexivity]. Qed.

(** C4 against the code: when ["primary-dependency"] is undefined,
    [get_primary_dep] fails with the assertion "Must define a
    primary-dependency!" unless [dep_tasks] holds exactly one task, and with
    exactly one task it raises a [TypeError], since the view
    [dep_tasks.values()] cannot be indexed: the single task is not
    returned. *)
Theorem get_primary_dep_undefined config dep_tasks :
  py_get "primary-dependency" config = PNone ->
  (dict_len dep_tasks = 1 ->
   get_primary_dep config dep_tasks
   = Raise (TypeError "'dict_values' object is not subscriptable"))
  /\ (dict_len dep_tasks <> 1 ->
      get_primary_dep config dep_tasks
      = Raise (AssertionError "Must define a primary-dependency!")).
Proof.
  intros Hpd. unfold get_primary_dep. rewrite Hpd. simpl.
  split; intros Hlen.
  - by rewrite bool_decide_eq_true_2.
  - by rewrite bool_decide_eq_false_2.
Qed.

Lemma get_primary_dep_undefined_witness :
  get_primary_dep Examples.config_none Examples.one_dep
  = Raise (TypeError "'dict_values' object is not subscriptable").
Proof.
  refine (proj1 (get_primary_dep_undefined Examples.config_none Examples.one_dep _) _);
    reflexivity.
Defined.

(** C5: when ["primary-dependency"] is specified, as a string or as a
    non-empty list, and no task of [dep_tasks] has a listed kind,
    [get_primary_dep] raises the exception "Can't find dependency". *)
Theorem get_primary_dep_not_found config dep_tasks pd :
  py_get "primary-dependency" config = pd ->
  listed_kinds pd <> [] ->
  keyed_by_kind dep_tasks ->
  (forall t, t ∈ dict_values dep_tasks -> PStr (kind t) ∉ listed_kinds pd) ->
  get_primary_dep config dep_tasks = Raise (cant_find config pd).
Proof.
  intros Hpd Hlisted Hkeyed Hnone.
  assert (Hm : forall l, l ⊆ listed_kinds pd -> matches l dep_tasks = []).
  { induction l as [|v l IH]; intros Hsub; simpl; [done|].
    destruct (dep_of dep_tasks v) as [t|] eqn:Hdep.
    - exfalso. destruct v as [ | | |k| | ]; simpl in Hdep; try done.
      apply dict_get_Some_elem in Hdep.
      pose proof (keyed_by_kind_elem _ _ _ Hkeyed Hdep) as Hk.
      apply (Hnone t); [apply elem_of_dict_values; eauto|].
      rewrite Hk. apply Hsub, list_elem_of_here.
    - apply IH. intros x Hx. apply Hsub. by apply list_elem_of_further. }
  rewrite (get_primary_dep_listed _ _ pd) by done.
  unfold search_primary_dep.
  assert (Hloop : for_each (outer_body dep_tasks) (listed_kinds pd) None = Ok None).
  { generalize (Hm (listed_kinds pd) (reflexivity _)).
    generalize (listed_kinds pd) as l. clear. intros l.
    induction l as [|v l IH]; simpl; [done|].
    destruct (dep_of dep_tasks v) as [t|] eqn:Hdep; [done|]. intros Hl.
    assert (Hv : outer_body dep_tasks v None = Ok None).
    { apply inner_no_match. intros k Hk.
      destruct v as [ | | |k'| | ]; simpl in *; try done.
      apply bool_decide_eq_false_2. intros ->.
      apply dict_get_None in Hdep. done. }
    rewrite Hv. simpl. by apply IH. }
  rewrite Hloop. simpl.
  rewrite (py_get_Some _ _ pd); [done | done |].
  intros ->. done.
Qed.

Lemma get_primary_dep_not_found_witness :
  get_primary_dep Examples.config_missing Examples.two_deps
  = Raise (cant_find Examples.config_missing (PStr "beetmover")).
Proof.
  apply (get_primary_dep_not_found Examples.config_missing Examples.two_deps).
  - reflexivity.
  - discriminate.
  - unfold keyed_by_kind. repeat constructor.
  - intros t Ht Hin. simpl in Ht, Hin.
    apply list_elem_of_singleton in Hin.
    apply elem_of_cons in Ht as [->|Ht]; [discriminate|].
    apply list_elem_of_singleton in Ht as ->. discriminate.
Defined.

(** Whether the search raises from its loops, and what it returns, does
    not depend on the configuration; the configuration only appears in the
    message of "Can't find dependency". *)
Lemma search_primary_dep_same_outcome c1 c2 dep_tasks l pd1 pd2 :
  dict_getitem "primary-dependency" c1 = Ok pd1 ->
  dict_getitem "primary-dependency" c2 = Ok pd2 ->
  same_outcome (search_primary_dep c1 dep_tasks l) (search_primary_dep c2 dep_tasks l).
Proof.
  intros H1 H2. unfold search_primary_dep.
  destruct (for_each (outer_body dep_tasks) l None) as [[t|]|e]; simpl; [done| |done].
  by rewrite H1, H2.
Qed.

(** C7: a string [s] and the one-element list [[s]] as
    ["primary-dependency"] give [get_primary_dep] the same outcome: the same
    task returned, or the same exception raised with the same message text
    (the message of "Can't find dependency" is formatted with the
    configuration itself, which is the only difference). *)
Theorem get_primary_dep_string_as_list c1 c2 dep_tasks s a :
  py_get "primary-dependency" c1 = PStr s ->
  py_get "primary-dependency" c2 = PList a [PStr s] ->
  same_outcome (get_primary_dep c1 dep_tasks) (get_primary_dep c2 dep_tasks).
Proof.
  intros H1 H2.
  rewrite (get_primary_dep_str c1 _ s) by done.
  rewrite (get_primary_dep_nonempty_list c2 _ a [PStr s]) by done.
  eapply search_primary_dep_same_outcome; eapply py_get_Some; eauto; done.
Qed.

Lemma get_primary_dep_string_as_list_witness :
  same_outcome (get_primary_dep Examples.config_str Examples.two_deps)
               (get_primary_dep Examples.config_one Examples.two_deps).
Proof.
  apply (get_primary_dep_string_as_list Examples.config_str Examples.config_one
           Examples.two_deps "build" 1); reflexivity.
Defined.

(** C8: when ["primary-dependency"] is a single string (or a one-element
    list of a string), the assertion "Too many primary dependent tasks" of
    [get_primary_dep] never fails: the dependency stored under that kind is
    returned, or "Can't find dependency" is raised when there is none, and
    the outcome is never that of the failing assertion.  The keys of a
    dictionary are distinct, so at most one of them equals the kind. *)
Theorem too_many_unreachable config dep_tasks pd s a :
  py_get "primary-dependency" config = pd ->
  pd = PStr s \/ pd = PList a [PStr s] ->
  dict_wf dep_tasks ->
  get_primary_dep config dep_tasks
  = match dict_get s dep_tasks with
    | Some t => Ok t
    | None => Raise (cant_find config pd)
    end
  /\ get_primary_dep config dep_tasks
     <> assert_failure (too_many_message dep_tasks).
Proof.
  intros Hpd Hshape Hwf.
  assert (Hres : get_primary_dep config dep_tasks
                 = match dict_get s dep_tasks with
                   | Some t => Ok t
                   | None => Raise (cant_find config pd)
                   end).
  { assert (Hl : listed_kinds pd = [PStr s]) by (by destruct Hshape as [->| ->]).
    rewrite (get_primary_dep_listed _ _ pd), Hl by (by rewrite ?Hl).
    rewrite search_primary_dep_spec by done. simpl.
    destruct (dict_get s dep_tasks); [done|].
    rewrite (py_get_Some _ _ pd); [done | done |].
    by destruct Hshape as [->| ->]. }
  split; [done|]. rewrite Hres, too_many_failure.
  destruct (dict_get s dep_tasks), dep_tasks; done.
Qed.

Lemma too_many_unreachable_witness :
  get_primary_dep Examples.config_str Examples.two_deps
  = match dict_get "build" Examples.two_deps with
    | Some t => Ok t
    | None => Raise (cant_find Examples.config_str (PStr "build"))
    end
  /\ get_primary_dep Examples.config_str Examples.two_deps
     <> assert_failure (too_many_message Examples.two_deps).
Proof.
  apply (too_many_unreachable Examples.config_str Examples.two_deps
           (PStr "build") "build" 0).
  - reflexivity.
  - left. reflexivity.
  - by_compute.
Defined.

(** *** The loader *)

Lemma dependent_tasks_nodup (dep_tasks : list Task) :
  NoDup (map kind dep_tasks) ->
  dependent_tasks dep_tasks = map (fun dep => (kind dep, dep)) dep_tasks.
Proof.
  intros Hnd. unfold dependent_tasks. apply dict_of_nodup.
  rewrite map_map. simpl. exact Hnd.
Qed.

(** With pairwise distinct kinds, the dictionary of dependent tasks holds
    the tasks of the group, each under its kind, and nothing else. *)
Lemma dependent_tasks_spec (dep_tasks : list Task) :
  NoDup (map kind dep_tasks) ->
  dict_wf (dependent_tasks dep_tasks)
  /\ keyed_by_kind (dependent_tasks dep_tasks)
  /\ dict_values (dependent_tasks dep_tasks) = dep_tasks
  /\ forall k t, dict_get k (dependent_tasks dep_tasks) = Some t
                 <-> t ∈ dep_tasks /\ kind t = k.
Proof.
  intros Hnd. rewrite dependent_tasks_nodup by done.
  assert (Hwf : dict_wf (map (fun dep => (kind dep, dep)) dep_tasks)).
  { unfold dict_wf, dict_keys. rewrite map_map. exact Hnd. }
  split_and!; [done | | |].
  - unfold keyed_by_kind. apply Forall_forall. intros [k t] Hin.
    apply list_elem_of_fmap in Hin as (dep & [= -> ->] & _). done.
  - unfold dict_values. rewrite map_map. simpl. apply map_id.
  - intros k t. split.
    + intros Hget. apply dict_get_Some_elem in Hget.
      apply list_elem_of_fmap in Hget as (dep & [= -> ->] & Hin). done.
    + intros [Hin <-]. apply dict_get_elem; [done|].
      apply list_elem_of_fmap. by exists t.
Qed.

Lemma build_task_spec config task_template dep_tasks n :
  build_task config task_template dep_tasks n
  = match get_primary_dep config (dependent_tasks dep_tasks) with
    | Raise e => Raise e
    | Ok primary =>
        if truthy task_template then
          let (template, n') := deepcopy task_template n in
          match py_update (computed_task dep_tasks primary) template with
          | Ok task => Ok (task, n')
          | Raise e => Raise e
          end
        else Ok (computed_task dep_tasks primary, n)
    end.
Proof.
  unfold build_task, mbind_, lift, ret. fold (dependent_tasks dep_tasks).
  destruct (get_primary_dep config (dependent_tasks dep_tasks)) as [p|e]; [|done].
  change (dict_set (HStr "primary-dependency") (ETask p) _)
    with (computed_task dep_tasks p).
  destruct (truthy task_template); [|done].
  by destruct (deepcopy task_template n).
Qed.

Lemma loader_body_spec config task_template dep_tasks n :
  loader_body config task_template dep_tasks n
  = if decide (NoDup (map kind dep_tasks)) then
      build_task config task_template dep_tasks n
    else Raise not_unique.
Proof.
  unfold loader_body, mbind_, lift. case_decide as Hnd.
  - by rewrite assert_unique_members_ok.
  - by rewrite assert_unique_members_raise.
Qed.

(** Applying a template that is a mapping: its keys get the copied values,
    the other keys keep what they had. *)
Lemma py_update_dict (task : task_dict) a items :
  py_update task (PDict a items)
  = Ok (dict_update task (map (fun kv => (HStr kv.1, EObj kv.2)) items)).
Proof. done. Qed.

Lemma dict_get_template_key (items : list (string * pyobj)) k :
  dict_get (HStr k) (map (fun kv => (HStr kv.1, EObj kv.2)) items)
  = EObj <$> dict_get k items.
Proof.
  induction items as [|[k' v'] items IH]; simpl; [done|].
  destruct (decide (k = k')) as [->|Hne].
  - by rewrite decide_True.
  - rewrite decide_False by congruence. done.
Qed.

Lemma dict_keys_template (items : list (string * pyobj)) :
  dict_keys (map (fun kv => (HStr kv.1, EObj kv.2)) items)
  = map HStr (dict_keys items).
Proof. unfold dict_keys. by rewrite !map_map. Qed.

Lemma dict_wf_template (items : list (string * pyobj)) :
  dict_wf items -> dict_wf (map (fun kv => (HStr kv.1, EObj kv.2)) items).
Proof.
  unfold dict_wf. rewrite dict_keys_template. intros Hwf.
  apply NoDup_fmap_2; [|done]. intros k1 k2 [= ->]. done.
Qed.

(** The loop yields once per group as long as the body succeeds. *)
Lemma loader_loop_prefix config task_template pre tasks n :
  loader_loop config task_template (yield_all pre Stop) n = yield_all tasks Stop ->
  length tasks = length pre
  /\ exists n1, forall rest,
       loader_loop config task_template (yield_all pre rest) n
       = yield_all tasks (loader_loop config task_template rest n1).
Proof.
  revert tasks n. induction pre as [|g pre IH]; intros tasks n; simpl.
  - destruct tasks; [|done]. intros _. split; [done|]. by exists n.
  - destruct (loader_body config task_template g n) as [[task n']|e]; [|by destruct tasks].
    destruct tasks as [|task' tasks]; [done|]. simpl. intros [= <- Hrest].
    destruct (IH _ _ Hrest) as (Hlen & n1 & Hn1).
    split; [by rewrite Hlen|]. exists n1. intros rest. by rewrite Hn1.
Qed.

(** Every task the loop yields is the result of its body on one of the
    groups, started at a counter that has not gone back. *)
Lemma build_task_counter config task_template dep_tasks n task n' :
  build_task config task_template dep_tasks n = Ok (task, n') -> n <= n'.
Proof.
  rewrite build_task_spec.
  destruct (get_primary_dep _ _); [|done].
  destruct (truthy task_template); [|by intros [= _ ->]].
  destruct (deepcopy_spec task_template n) as (y & m & E & Hle & _).
  rewrite E. destruct (py_update _ y); [|done]. intros [= _ <-]. done.
Qed.

Lemma loader_loop_yielded config task_template groups n task :
  task ∈ yielded (loader_loop config task_template groups n) ->
  exists g m m', g ∈ yielded groups /\ n <= m
                 /\ loader_body config task_template g m = Ok (task, m').
Proof.
  revert n. induction groups as [|g rest IH|e]; intros n; simpl.
  - intros Hin. by apply elem_of_nil in Hin.
  - destruct (loader_body config task_template g n) as [[task' n']|e] eqn:Hbody;
      simpl; [|intros Hin; by apply elem_of_nil in Hin].
    intros Hin. apply elem_of_cons in Hin as [->|Hin].
    + exists g, n, n'. split_and!; [apply list_elem_of_here | done | done].
    + destruct (IH _ Hin) as (g' & m & m' & Hg' & Hle & Hb).
      exists g', m, m'. split_and!; [by apply list_elem_of_further | | done].
      rewrite loader_body_spec in Hbody. case_decide; [|done].
      apply build_task_counter in Hbody. lia.
  - intros Hin. by apply elem_of_nil in Hin.
Qed.

Section LoaderFacts.
Variable group_tasks : pydict string pyobj -> list Task -> gen (list Task).
Variables (kind_ path : string) (config params : pydict string pyobj).
Variable loaded_tasks : list Task.

#[local] Abbreviation task_template := (py_get "task-template" config).

(** When the template leaves ["dependent-tasks"] alone and the primary
    dependency is found, the body yields a task whose ["dependent-tasks"]
    entry is the dictionary built from the group. *)
Lemma build_task_dependent_tasks tpl dep_tasks primary n :
  get_primary_dep config (dependent_tasks dep_tasks) = Ok primary ->
  keeps_dependent_tasks tpl ->
  exists task n',
    build_task config tpl dep_tasks n = Ok (task, n')
    /\ dict_get (HStr "dependent-tasks") task
       = Some (EDeps (dependent_tasks dep_tasks)).
Proof.
  intros Hp Hkeep. rewrite build_task_spec, Hp.
  destruct Hkeep as [Hfalsy|(a & items & -> & Hnone)].
  - rewrite Hfalsy. eexists _, _. split; [reflexivity|]. reflexivity.
  - destruct (truthy (PDict a items)); [|eexists _, _; split; reflexivity].
    destruct (deepcopy_dict a items n) as (items' & n' & E & _ & Hkeys & _).
    rewrite E, py_update_dict. eexists _, _. split; [reflexivity|].
    rewrite dict_get_update_notin; [reflexivity|].
    rewrite dict_keys_template, Hkeys. intros Hin.
    apply list_elem_of_fmap in Hin as (k & [= <-] & Hin).
    by apply dict_get_None in Hnone.
Qed.

(** C1, as the code has it: for a group produced by [group_tasks] whose
    kinds are pairwise distinct, if the groups before it were processed
    without an exception, [get_primary_dep] returns a task for the group,
    and the task template is absent or empty or a mapping that does not
    define ["dependent-tasks"], then [loader] yields exactly one task for
    the group, after the tasks of the earlier groups, and the
    ["dependent-tasks"] entry of that task maps each task's kind to that
    task and holds exactly the tasks of the group. *)
Theorem loader_yields_group n pre dep_tasks rest tasks primary :
  group_tasks config loaded_tasks = yield_all pre (Yield dep_tasks rest) ->
  loader_loop config task_template (yield_all pre Stop) n = yield_all tasks Stop ->
  NoDup (map kind dep_tasks) ->
  get_primary_dep config (dependent_tasks dep_tasks) = Ok primary ->
  keeps_dependent_tasks task_template ->
  exists task n' d,
    loader group_tasks kind_ path config params loaded_tasks n
    = yield_all tasks (Yield task (loader_loop config task_template rest n'))
    /\ length tasks = length pre
    /\ dict_get (HStr "dependent-tasks") task = Some (EDeps d)
    /\ dict_values d = dep_tasks
    /\ forall k t, dict_get k d = Some t <-> t ∈ dep_tasks /\ kind t = k.
Proof.
  intros Hgroups Hpre Hnd Hp Hkeep.
  destruct (loader_loop_prefix _ _ _ _ _ Hpre) as (Hlen & n1 & Hn1).
  destruct (build_task_dependent_tasks task_template dep_tasks primary n1 Hp Hkeep)
    as (task & n' & Hbuild & Hdeps).
  destruct (dependent_tasks_spec dep_tasks Hnd) as (_ & _ & Hvalues & Hget).
  exists task, n', (dependent_tasks dep_tasks).
  split_and!; [|done..].
  unfold loader. rewrite Hgroups, Hn1. simpl.
  rewrite loader_body_spec, decide_True by done. by rewrite Hbuild.
Qed.

End LoaderFacts.

Lemma loader_yields_group_witness :
  exists task n' d,
    loader Examples.one_group "signing" "taskcluster/ci/signing"
           Examples.config_template [] [Examples.build; Examples.signing] 10
    = yield_all [] (Yield task (loader_loop Examples.config_template
                                  (py_get "task-template" Examples.config_template)
                                  Stop n'))
    /\ length (@nil task_dict) = length (@nil (list Task))
    /\ dict_get (HStr "dependent-tasks") task = Some (EDeps d)
    /\ dict_values d = [Examples.build; Examples.signing]
    /\ forall k t, dict_get k d = Some t
                   <-> t ∈ [Examples.build; Examples.signing] /\ kind t = k.
Proof.
  apply (loader_yields_group Examples.one_group "signing" "taskcluster/ci/signing"
           Examples.config_template [] [Examples.build; Examples.signing]
           10 [] [Examples.build; Examples.signing] Stop [] Examples.build).
  - reflexivity.
  - reflexivity.
  - by_compute.
  - reflexivity.
  - right. exists 2, Examples.template. split; reflexivity.
Defined.

(** C1 as stated fails: the single group below has two tasks of distinct
    kinds, none of which is of the configured primary kind, and [loader]
    yields no task for it: it ends with "Can't find dependency". *)
Lemma loader_yields_nothing :
  Examples.one_group Examples.config_missing [Examples.build; Examples.signing]
  = Yield [Examples.build; Examples.signing] Stop
  /\ NoDup (map kind [Examples.build; Examples.signing])
  /\ yielded (loader Examples.one_group "signing" "taskcluster/ci/signing"
                Examples.config_missing [] [Examples.build; Examples.signing] 10)
     = []
  /\ thrown (loader Examples.one_group "signing" "taskcluster/ci/signing"
               Examples.config_missing [] [Examples.build; Examples.signing] 10)
     = Some (cant_find Examples.config_missing (PStr "beetmover")).
Proof. split_and!; [reflexivity | by_compute | reflexivity | reflexivity]. Qed.



(** The check at work: the second group has two tasks of kind ["build"]. *)
Example loader_stops_at_duplicate :
  loader (fun _ tasks => Yield tasks (Yield [Examples.build; Examples.build_release]
                                        (Yield [Examples.build] Stop)))
         "signing" "taskcluster/ci/signing" Examples.config_str []
         [Examples.build; Examples.signing] 10
  = Yield (computed_task [Examples.build; Examples.signing] Examples.build)
          (Throw not_unique).
Proof. reflexivity. Qed.

(** C9: when ["task-template"] is a mapping, every task [loader] yields
    holds, under each key of the template, a deep copy of the template's
    value: a value with the same contents, none of whose containers is one
    of the template.  So a ["dependent-tasks"] or ["primary-dependency"] key
    of the template replaces what [loader] computed, and every key that the
    template does not have keeps what [loader] computed for it. *)
Theorem template_applied
    (group_tasks : pydict string pyobj -> list Task -> gen (list Task))
    (kind_ path : string) (config params : pydict string pyobj)
    (loaded_tasks : list Task) (n : addr) a items task :
  py_get "task-template" config = PDict a items ->
  dict_wf items ->
  Forall (fun b => b < n) (addrs (PDict a items)) ->
  task ∈ yielded (loader group_tasks kind_ path config params loaded_tasks n) ->
  exists dep_tasks primary,
    dep_tasks ∈ yielded (group_tasks config loaded_tasks)
    /\ get_primary_dep config (dependent_tasks dep_tasks) = Ok primary
    /\ (forall k v, dict_get k items = Some v ->
          exists v', dict_get (HStr k) task = Some (EObj v')
                     /\ erase v' = erase v
                     /\ Forall (fun b => b ∉ addrs (PDict a items)) (addrs v'))
    /\ (forall hk, (forall k, hk = HStr k -> dict_get k items = None) ->
          dict_get hk task = dict_get hk (computed_task dep_tasks primary)).
Proof.
  intros Htpl Hwf Hold Hin. unfold loader in Hin. rewrite Htpl in Hin.
  apply loader_loop_yielded in Hin as (g & m & m' & Hg & Hle & Hbody).
  rewrite loader_body_spec in Hbody. case_decide as Hnd; [|done].
  rewrite build_task_spec in Hbody.
  destruct (get_primary_dep config (dependent_tasks g)) as [p|e] eqn:Hp; [|done].
  exists g, p. split_and!; [done | done | |].
  - intros k v Hget. destruct items as [|kv items0] eqn:Hitems; [done|].
    rewrite <- Hitems in *. assert (Htruthy : truthy (PDict a items) = true)
      by (by rewrite Hitems).
    rewrite Htruthy in Hbody.
    destruct (deepcopy_dict a items m) as (items' & m1 & E & _ & Hkeys & Hcopy).
    rewrite E, py_update_dict in Hbody. injection Hbody as <- _.
    destruct (Hcopy k v Hget) as (v' & Hget' & Her & Hfr).
    exists v'. split_and!; [|done|].
    + rewrite dict_get_update, dict_get_template_key, Hget'; [done|].
      apply dict_wf_template. unfold dict_wf. by rewrite Hkeys.
    + apply Forall_forall. intros b Hb Hb'.
      rewrite Forall_forall in Hfr, Hold.
      specialize (Hfr b Hb). specialize (Hold b Hb'). simpl in Hfr. lia.
  - intros hk Hhk.
    destruct (truthy (PDict a items)); [|by injection Hbody as <- _].
    destruct (deepcopy_dict a items m) as (items' & m1 & E & _ & Hkeys & _).
    rewrite E, py_update_dict in Hbody. injection Hbody as <- _.
    apply dict_get_update_notin. rewrite dict_keys_template, Hkeys.
    intros Hmem. apply list_elem_of_fmap in Hmem as (k & -> & Hk).
    specialize (Hhk k eq_refl). by apply dict_get_None in Hhk.
Qed.

Lemma template_applied_witness :
  exists dep_tasks primary,
    dep_tasks ∈ yielded (Examples.one_group Examples.config_template
                           [Examples.build; Examples.signing])
    /\ get_primary_dep Examples.config_template (dependent_tasks dep_tasks)
       = Ok primary
    /\ (forall k v, dict_get k Examples.template = Some v ->
          exists v', dict_get (HStr k) Examples.templated_task = Some (EObj v')
                     /\ erase v' = erase v
                     /\ Forall (fun b => b ∉ addrs (PDict 2 Examples.template))
                               (addrs v'))
    /\ (forall hk, (forall k, hk = HStr k -> dict_get k Examples.template = None) ->
          dict_get hk Examples.templated_task
          = dict_get hk (computed_task dep_tasks primary)).
Proof.
  apply (template_applied Examples.one_group "signing" "taskcluster/ci/signing"
           Examples.config_template [] [Examples.build; Examples.signing] 10
           2 Examples.template Examples.templated_task).
  - reflexivity.
  - by_compute.
  - by_compute.
  - apply list_elem_of_here.
Defined.

End MultiDepFacts.

(** ** Further properties of the loader *)

Module LoaderProperties.
Import Py PyFacts MultiDep Schema MultiDepFacts.

(** *** What the search returns and how it fails *)

Lemma str_eq_true k x : str_eq k x = true -> x = PStr k.
Proof.
  destruct x as [ | | |s| | ]; simpl; try done.
  intros Hk. apply bool_decide_eq_true_1 in Hk. by subst.
Qed.

Lemma assert_failure_not_ok {A : Type} (msg : result string) (r : A) :
  assert_failure msg <> Ok r.
Proof. destruct (assert_failure_raises (A:=A) msg) as [e ->]. done. Qed.

(** A value the inner loop leaves in [primary_dep] is the one it found there
    or the dependency stored under the kind it looks for. *)
Lemma inner_loop_ok d pk ks acc r :
  for_each (inner_body d pk) ks acc = Ok r ->
  r = acc \/ exists k t, pk = PStr k /\ dict_get k d = Some t /\ r = Some t.
Proof.
  revert acc. induction ks as [|k0 ks IH]; intros acc; simpl.
  - intros [= <-]. by left.
  - unfold inner_body at 1. destruct (str_eq k0 pk) eqn:Heq; simpl; [|apply IH].
    apply str_eq_true in Heq as ->.
    destruct acc as [t0|]; simpl.
    + rewrite !bind_assert_failure. intros Hr. by apply assert_failure_not_ok in Hr.
    + unfold dict_getitem. destruct (dict_get k0 d) as [t|] eqn:Hget; simpl; [|done].
      intros Hr. apply IH in Hr as [->|Hr]; [|by right].
      right. by exists k0, t.
Qed.

Lemma outer_loop_ok d l acc r :
  for_each (outer_body d) l acc = Ok r ->
  r = acc \/ exists k t, PStr k ∈ l /\ dict_get k d = Some t /\ r = Some t.
Proof.
  revert acc. induction l as [|pk l IH]; intros acc; simpl.
  - intros [= <-]. by left.
  - destruct (outer_body d pk acc) as [acc'|e] eqn:Hpk; simpl; [|done].
    intros Hr. apply IH in Hr as [->|(k & t & Hin & Hget & ->)].
    + apply inner_loop_ok in Hpk as [->|(k & t & -> & Hget & ->)]; [by left|].
      right. exists k, t. split_and!; [apply list_elem_of_here | done | done].
    + right. exists k, t. split_and!; [by apply list_elem_of_further | done | done].
Qed.

(** The loops raise only from the failing assertion, whose message cannot
    be computed: the keys of [dep_tasks] are strings. *)
Lemma inner_loop_raise d pk ks acc e :
  (forall k, k ∈ ks -> k ∈ dict_keys d) ->
  for_each (inner_body d pk) ks acc = Raise e -> e = no_label.
Proof.
  revert acc. induction ks as [|k0 ks IH]; intros acc Hsub; simpl; [done|].
  assert (Hks : forall k, k ∈ ks -> k ∈ dict_keys d).
  { intros k Hk. apply Hsub. by apply list_elem_of_further. }
  assert (Hk0 : k0 ∈ dict_keys d) by apply Hsub, list_elem_of_here.
  unfold inner_body at 1. destruct (str_eq k0 pk); simpl; [|by apply IH].
  destruct acc as [t0|]; simpl.
  - rewrite !bind_assert_failure, too_many_failure.
    destruct d; [by apply elem_of_nil in Hk0|]. by intros [= <-].
  - unfold dict_getitem. destruct (dict_get k0 d) as [t|] eqn:Hget; simpl.
    + by apply IH.
    + by apply dict_get_None in Hget.
Qed.

Lemma outer_loop_raise d l acc e :
  for_each (outer_body d) l acc = Raise e -> e = no_label.
Proof.
  revert acc. induction l as [|pk l IH]; intros acc; simpl; [done|].
  destruct (outer_body d pk acc) as [acc'|e'] eqn:Hpk; simpl; [apply IH|].
  intros [= <-]. by apply inner_loop_raise in Hpk.
Qed.

Lemma search_primary_dep_ok config d l t :
  search_primary_dep config d l = Ok t ->
  exists k, PStr k ∈ l /\ dict_get k d = Some t.
Proof.
  unfold search_primary_dep.
  destruct (for_each (outer_body d) l None) as [[t'|]|e] eqn:Hloop; simpl.
  - intros [= <-]. apply outer_loop_ok in Hloop as [?|(k & t0 & Hin & Hget & [= <-])];
      [done|]. by exists k.
  - by destruct (dict_getitem "primary-dependency" config).
  - done.
Qed.

Lemma search_primary_dep_raise config d l pd e :
  dict_getitem "primary-dependency" config = Ok pd ->
  search_primary_dep config d l = Raise e ->
  e = no_label \/ e = cant_find config pd.
Proof.
  intros Hpd. unfold search_primary_dep.
  destruct (for_each (outer_body d) l None) as [[t'|]|e'] eqn:Hloop; simpl.
  - done.
  - rewrite Hpd. simpl. intros [= <-]. by right.
  - intros [= <-]. left. by apply outer_loop_raise in Hloop.
Qed.

Lemma truthy_not_none pd : truthy pd = true -> pd <> PNone.
Proof. by intros Ht ->. Qed.

(** The primary dependency is never made up: a task [get_primary_dep]
    returns is stored in [dep_tasks], under a kind that
    ["primary-dependency"] names.  So nothing is returned when that value is
    absent or empty. *)
Theorem get_primary_dep_sound config dep_tasks t :
  get_primary_dep config dep_tasks = Ok t ->
  t ∈ dict_values dep_tasks
  /\ exists k, PStr k ∈ searched_kinds (py_get "primary-dependency" config)
               /\ dict_get k dep_tasks = Some t.
Proof.
  unfold get_primary_dep, searched_kinds.
  set (pd := py_get "primary-dependency" config). intros Hres.
  assert (Hk : exists k, PStr k ∈ (if isinstance_str pd then [pd]
                                   else if truthy pd then
                                     match py_iter pd with
                                     | Ok kinds => kinds
                                     | Raise _ => []
                                     end
                                   else [])
                         /\ dict_get k dep_tasks = Some t).
  { destruct (isinstance_str pd); [by apply search_primary_dep_ok in Hres|].
    destruct (truthy pd); simpl in Hres.
    - destruct (py_iter pd) as [kinds|e]; simpl in Hres; [|done].
      by apply search_primary_dep_ok in Hres.
    - by destruct (bool_decide (dict_len dep_tasks = 1)). }
  split; [|done]. destruct Hk as (k & _ & Hget).
  apply elem_of_dict_values. exists k. by apply dict_get_Some_elem.
Qed.

Lemma get_primary_dep_sound_witness :
  Examples.build ∈ dict_values Examples.two_deps
  /\ exists k, PStr k ∈ searched_kinds (py_get "primary-dependency" Examples.config_str)
               /\ dict_get k Examples.two_deps = Some Examples.build.
Proof.
  apply (get_primary_dep_sound Examples.config_str Examples.two_deps Examples.build).
  reflexivity.
Defined.

(** The ways [get_primary_dep] fails are five: the assertion "Must define a
    primary-dependency!", the indexing of [dep_tasks.values()], a value of
    ["primary-dependency"] that cannot be iterated, the computation of the
    message of the second assertion, and "Can't find dependency".  It never
    raises a [KeyError], and the message "Too many primary dependent tasks"
    is never delivered. *)
Theorem get_primary_dep_failures config dep_tasks e :
  get_primary_dep config dep_tasks = Raise e ->
  e = must_define
  \/ e = not_subscriptable
  \/ e = not_iterable (py_get "primary-dependency" config)
  \/ e = no_label
  \/ e = cant_find config (py_get "primary-dependency" config).
Proof.
  unfold get_primary_dep. set (pd := py_get "primary-dependency" config).
  assert (Hpd : pd <> PNone -> dict_getitem "primary-dependency" config = Ok pd)
    by (by apply py_get_Some).
  destruct (isinstance_str pd) eqn:Hstr.
  { intros Hres. apply (search_primary_dep_raise _ _ _ pd) in Hres as [->| ->]; auto.
    apply Hpd. by destruct pd. }
  destruct (truthy pd) eqn:Htruthy; simpl.
  - destruct (py_iter pd) as [kinds|e'] eqn:Hiter; simpl.
    + intros Hres.
      apply (search_primary_dep_raise _ _ _ pd) in Hres as [->| ->]; auto.
      by apply Hpd, truthy_not_none.
    + intros [= <-]. right. right. left.
      destruct pd; simpl in Hiter; try done; by injection Hiter as <-.
  - destruct (bool_decide (dict_len dep_tasks = 1)); simpl; intros [= <-]; auto.
Qed.

Lemma get_primary_dep_failures_witness :
  cant_find Examples.config_missing (PStr "beetmover") = must_define
  \/ cant_find Examples.config_missing (PStr "beetmover") = not_subscriptable
  \/ cant_find Examples.config_missing (PStr "beetmover")
     = not_iterable (py_get "primary-dependency" Examples.config_missing)
  \/ cant_find Examples.config_missing (PStr "beetmover") = no_label
  \/ cant_find Examples.config_missing (PStr "beetmover")
     = cant_find Examples.config_missing
         (py_get "primary-dependency" Examples.config_missing).
Proof.
  apply (get_primary_dep_failures Examples.config_missing Examples.two_deps).
  reflexivity.
Defined.

(** *** What the outcome depends on *)

Lemma same_outcome_refl {A : Type} (r : result A) : same_outcome r r.
Proof. by destruct r. Qed.

Lemma matches_Permutation l1 l2 d : l1 ≡ₚ l2 -> matches l1 d ≡ₚ matches l2 d.
Proof.
  induction 1 as [|x l1 l2 _ IH|x y l|l1 l2 l3 _ IH1 _ IH2]; simpl.
  - done.
  - destruct (dep_of d x); [by constructor | done].
  - destruct (dep_of d x), (dep_of d y); try done. apply perm_swap.
  - by etrans.
Qed.

(** The order of the list of ["primary-dependency"] does not matter: two
    configurations whose lists hold the same kinds in any order give
    [get_primary_dep] the same outcome on the same dependencies. *)
Theorem get_primary_dep_order c1 c2 dep_tasks a1 l1 a2 l2 :
  py_get "primary-dependency" c1 = PList a1 l1 ->
  py_get "primary-dependency" c2 = PList a2 l2 ->
  l1 ≡ₚ l2 ->
  dict_wf dep_tasks ->
  same_outcome (get_primary_dep c1 dep_tasks) (get_primary_dep c2 dep_tasks).
Proof.
  intros H1 H2 Hperm Hwf.
  destruct l1 as [|x l1].
  { apply Permutation_nil_l in Hperm as <-.
    unfold get_primary_dep. rewrite H1, H2. simpl. apply same_outcome_refl. }
  assert (Hl2 : l2 <> []).
  { intros ->. by apply Permutation_nil_r in Hperm. }
  rewrite (get_primary_dep_nonempty_list c1 _ a1 (x :: l1)) by done.
  rewrite (get_primary_dep_nonempty_list c2 _ a2 l2) by done.
  rewrite !search_primary_dep_spec by done.
  pose proof (matches_Permutation _ _ dep_tasks Hperm) as Hm.
  rewrite (py_get_Some c1 _ _ H1), (py_get_Some c2 _ _ H2) by done.
  destruct (matches (x :: l1) dep_tasks) as [|t [|t' m]].
  - apply Permutation_nil_l in Hm as <-. done.
  - apply Permutation_singleton_l in Hm as <-. done.
  - pose proof (Permutation_length Hm) as Hlen.
    destruct (matches l2 dep_tasks) as [|u [|u' m']]; simpl in Hlen; try lia.
    apply same_outcome_refl.
Qed.

Lemma get_primary_dep_order_witness :
  same_outcome
    (get_primary_dep Examples.config_list Examples.one_dep)
    (get_primary_dep [("primary-dependency", PList 5 [PStr "build"; PStr "signing"])]
                     Examples.one_dep).
Proof.
  apply (get_primary_dep_order Examples.config_list
           [("primary-dependency", PList 5 [PStr "build"; PStr "signing"])]
           Examples.one_dep 1 [PStr "signing"; PStr "build"]
           5 [PStr "build"; PStr "signing"]).
  - reflexivity.
  - reflexivity.
  - apply perm_swap.
  - by_compute.
Defined.

(** Of the configuration, [get_primary_dep] reads ["primary-dependency"]
    only: two configurations with the same value there give the same
    outcome, whatever else they hold. *)
Theorem get_primary_dep_reads_one_key c1 c2 dep_tasks :
  py_get "primary-dependency" c1 = py_get "primary-dependency" c2 ->
  same_outcome (get_primary_dep c1 dep_tasks) (get_primary_dep c2 dep_tasks).
Proof.
  intros Heq. unfold get_primary_dep. rewrite <- Heq.
  set (pd := py_get "primary-dependency" c1).
  assert (Hsearch : pd <> PNone -> forall l,
             same_outcome (search_primary_dep c1 dep_tasks l)
                          (search_primary_dep c2 dep_tasks l)).
  { intros Hpd l. apply (search_primary_dep_same_outcome _ _ _ _ pd pd);
      by apply py_get_Some. }
  destruct (isinstance_str pd) eqn:Hstr.
  { apply Hsearch. by destruct pd. }
  destruct (truthy pd) eqn:Htruthy; simpl; [|apply same_outcome_refl].
  destruct (py_iter pd) as [kinds|e]; simpl; [|done].
  by apply Hsearch, truthy_not_none.
Qed.

Lemma get_primary_dep_reads_one_key_witness :
  same_outcome
    (get_primary_dep Examples.config_str Examples.two_deps)
    (get_primary_dep [("primary-dependency", PStr "build"); ("group-by", PStr "none")]
                     Examples.two_deps).
Proof.
  apply (get_primary_dep_reads_one_key Examples.config_str
           [("primary-dependency", PStr "build"); ("group-by", PStr "none")]
           Examples.two_deps).
  reflexivity.
Defined.

(** [assert_unique_members] does not look at the order of its list. *)
Theorem assert_unique_members_order kinds kinds' error_msg :
  kinds ≡ₚ kinds' ->
  assert_unique_members kinds error_msg = assert_unique_members kinds' error_msg.
Proof.
  intros Hperm. destruct (decide (NoDup kinds)) as [Hnd|Hdup].
  - rewrite !assert_unique_members_ok; [done | by rewrite <- Hperm | done].
  - rewrite !assert_unique_members_raise; [done | by rewrite <- Hperm | done].
Qed.

Lemma assert_unique_members_order_witness :
  assert_unique_members ["build"; "signing"; "build"] None
  = assert_unique_members ["signing"; "build"; "build"] None.
Proof.
  apply (assert_unique_members_order ["build"; "signing"; "build"]
           ["signing"; "build"; "build"] None).
  apply perm_swap.
Defined.

(** *** The tasks the loader yields *)

(** What a successful run of the body went through. *)
Lemma loader_body_ok config tpl g m task m' :
  loader_body config tpl g m = Ok (task, m') ->
  NoDup (map kind g)
  /\ exists p, get_primary_dep config (dependent_tasks g) = Ok p
     /\ if truthy tpl then
          exists copy, deepcopy tpl m = (copy, m')
                       /\ py_update (computed_task g p) copy = Ok task
        else task = computed_task g p /\ m' = m.
Proof.
  rewrite loader_body_spec. case_decide as Hnd; [|done].
  rewrite build_task_spec.
  destruct (get_primary_dep config (dependent_tasks g)) as [p|e]; [|done].
  intros Hbody. split; [done|]. exists p. split; [done|].
  destruct (truthy tpl).
  - destruct (deepcopy tpl m) as [copy m1].
    destruct (py_update (computed_task g p) copy) as [task'|e] eqn:Hup; [|done].
    injection Hbody as <- <-. by exists copy.
  - by injection Hbody as <- <-.
Qed.

Lemma get_primary_dep_in_group config g p :
  NoDup (map kind g) ->
  get_primary_dep config (dependent_tasks g) = Ok p ->
  p ∈ g /\ dict_get (kind p) (dependent_tasks g) = Some p.
Proof.
  intros Hnd Hp.
  destruct (dependent_tasks_spec g Hnd) as (_ & _ & _ & Hget).
  assert (exists k, dict_get k (dependent_tasks g) = Some p) as [k Hk].
  { unfold get_primary_dep in Hp.
    destruct (isinstance_str _).
    - apply search_primary_dep_ok in Hp as (k & _ & Hk). eauto.
    - destruct (truthy _); simpl in Hp.
      + destruct (py_iter _); simpl in Hp; [|done].
        apply search_primary_dep_ok in Hp as (k & _ & Hk). eauto.
      + by destruct (bool_decide _). }
  pose proof Hk as Hk'. apply Hget in Hk' as [Hin <-]. done.
Qed.

(** The loader yields at most one task per group, and it ends normally
    exactly when the grouping ended normally and every group gave its
    task. *)
Theorem loader_one_task_per_group
    (group_tasks : pydict string pyobj -> list Task -> gen (list Task))
    (kind_ path : string) (config params : pydict string pyobj)
    (loaded_tasks : list Task) (n : addr) :
  length (yielded (loader group_tasks kind_ path config params loaded_tasks n))
  <= length (yielded (group_tasks config loaded_tasks))
  /\ (thrown (loader group_tasks kind_ path config params loaded_tasks n) = None
      <-> thrown (group_tasks config loaded_tasks) = None
          /\ length (yielded (loader group_tasks kind_ path config params
                                loaded_tasks n))
             = length (yielded (group_tasks config loaded_tasks))).
Proof.
  unfold loader. generalize (py_get "task-template" config) as tpl.
  generalize (group_tasks config loaded_tasks) as groups. intros groups tpl.
  revert n. induction groups as [|g rest IH|e]; intros n; simpl.
  - split; [done|]. by split.
  - destruct (loader_body config tpl g n) as [[task n']|e]; simpl.
    + destruct (IH n') as [Hle Hiff]. split; [lia|]. rewrite Hiff.
      split; intros [? ?]; split; (done || lia).
    + split; [lia|]. split; [done | intros [_ ?]; done].
  - split; [done|]. split; [done | intros [? _]; done].
Qed.

(** An exception of [group_tasks] reaches the caller of [loader], after the
    tasks of the groups that came before it. *)
Theorem loader_propagates
    (group_tasks : pydict string pyobj -> list Task -> gen (list Task))
    (kind_ path : string) (config params : pydict string pyobj)
    (loaded_tasks : list Task) (n : addr) pre e tasks :
  group_tasks config loaded_tasks = yield_all pre (Throw e) ->
  loader_loop config (py_get "task-template" config) (yield_all pre Stop) n
  = yield_all tasks Stop ->
  loader group_tasks kind_ path config params loaded_tasks n
  = yield_all tasks (Throw e).
Proof.
  intros Hgroups Hpre. unfold loader. rewrite Hgroups.
  destruct (loader_loop_prefix _ _ _ _ _ Hpre) as (_ & n1 & Hn1).
  by rewrite Hn1.
Qed.

Lemma loader_propagates_witness :
  loader MoreExamples.failing_groups "signing" "taskcluster/ci/signing"
         Examples.config_str [] [Examples.build; Examples.signing] 10
  = yield_all [computed_task [Examples.build; Examples.signing] Examples.build]
              (Throw (KeyError "group-by")).
Proof.
  apply (loader_propagates MoreExamples.failing_groups "signing"
           "taskcluster/ci/signing" Examples.config_str []
           [Examples.build; Examples.signing] 10
           [[Examples.build; Examples.signing]]); reflexivity.
Defined.

(** Storing entries never removes a key. *)
Lemma dict_set_keeps {K V : Type} `{EqDecision K} (d : pydict K V) k k' v :
  is_Some (dict_get k d) -> is_Some (dict_get k (dict_set k' v d)).
Proof.
  intros Hk. destruct (decide (k' = k)) as [->|Hne].
  - rewrite dict_get_set_eq. eauto.
  - by rewrite dict_get_set_ne.
Qed.

Lemma dict_update_keeps {K V : Type} `{EqDecision K} (d other : pydict K V) k :
  is_Some (dict_get k d) -> is_Some (dict_get k (dict_update d other)).
Proof.
  unfold dict_update. revert d.
  induction other as [|[k' v'] other IH]; simpl; intros d Hk; [done|].
  apply IH. by apply dict_set_keeps.
Qed.

Lemma update_pairs_keeps i elems (task task' : task_dict) hk :
  update_pairs i elems task = Ok task' ->
  is_Some (dict_get hk task) -> is_Some (dict_get hk task').
Proof.
  revert i task. induction elems as [|e elems IH]; intros i task; simpl.
  - by intros [= <-].
  - destruct (as_pair i e) as [[k v]|?]; simpl; [|done].
    destruct (as_key k) as [hk'|?]; simpl; [|done].
    intros Hup Hk. eapply IH; [exact Hup|]. by apply dict_set_keeps.
Qed.

Lemma py_update_keeps (task task' : task_dict) other hk :
  py_update task other = Ok task' ->
  is_Some (dict_get hk task) -> is_Some (dict_get hk task').
Proof.
  destruct other as [ | | | | |a items]; simpl;
    try done; try (by apply update_pairs_keeps).
  intros [= <-]. apply dict_update_keeps.
Qed.

(** Whatever the template is, every task [loader] yields has the two keys
    ["dependent-tasks"] and ["primary-dependency"]: a template can replace
    their values and cannot remove them. *)
Theorem loader_keys_present
    (group_tasks : pydict string pyobj -> list Task -> gen (list Task))
    (kind_ path : string) (config params : pydict string pyobj)
    (loaded_tasks : list Task) (n : addr) task :
  task ∈ yielded (loader group_tasks kind_ path config params loaded_tasks n) ->
  is_Some (dict_get (HStr "dependent-tasks") task)
  /\ is_Some (dict_get (HStr "primary-dependency") task).
Proof.
  intros Hin. unfold loader in Hin.
  apply loader_loop_yielded in Hin as (g & m & m' & _ & _ & Hbody).
  apply loader_body_ok in Hbody as (_ & p & _ & Htask).
  assert (Hbase : is_Some (dict_get (HStr "dependent-tasks") (computed_task g p))
                  /\ is_Some (dict_get (HStr "primary-dependency") (computed_task g p)))
    by (split; simpl; eauto).
  destruct (truthy _).
  - destruct Htask as (copy & _ & Hup).
    split; eapply py_update_keeps; try exact Hup; apply Hbase.
  - by destruct Htask as [-> _].
Qed.

Lemma loader_keys_present_witness :
  is_Some (dict_get (HStr "dependent-tasks") Examples.templated_task)
  /\ is_Some (dict_get (HStr "primary-dependency") Examples.templated_task).
Proof.
  apply (loader_keys_present Examples.one_group "signing" "taskcluster/ci/signing"
           Examples.config_template [] [Examples.build; Examples.signing] 10).
  apply list_elem_of_here.
Defined.

(** When the template leaves the two computed entries alone, every task
    [loader] yields has what [schema] requires: under
    ["dependent-tasks"] the dictionary of the tasks of its group, keyed by
    kind, and under ["primary-dependency"] a task, which is the one of that
    dictionary stored under its own kind.  Without a template the task has
    no other key and validates against [schema]. *)
Theorem loader_meets_schema
    (group_tasks : pydict string pyobj -> list Task -> gen (list Task))
    (kind_ path : string) (config params : pydict string pyobj)
    (loaded_tasks : list Task) (n : addr) task :
  keeps_computed (py_get "task-template" config) ->
  task ∈ yielded (loader group_tasks kind_ path config params loaded_tasks n) ->
  exists dep_tasks primary,
    dep_tasks ∈ yielded (group_tasks config loaded_tasks)
    /\ dict_get (HStr "dependent-tasks") task
       = Some (EDeps (dependent_tasks dep_tasks))
    /\ dict_values (dependent_tasks dep_tasks) = dep_tasks
    /\ dict_get (HStr "primary-dependency") task = Some (ETask primary)
    /\ dict_get (kind primary) (dependent_tasks dep_tasks) = Some primary
    /\ required_ok schema task = true
    /\ (truthy (py_get "task-template" config) = false ->
        validate schema task = true).
Proof.
  intros Hkeep Hin. unfold loader in Hin.
  apply loader_loop_yielded in Hin as (g & m & m' & Hg & _ & Hbody).
  apply loader_body_ok in Hbody as (Hnd & p & Hp & Htask).
  destruct (get_primary_dep_in_group _ _ _ Hnd Hp) as [_ Hstored].
  destruct (dependent_tasks_spec g Hnd) as (_ & _ & Hvalues & _).
  exists g, p.
  assert (Hentries : dict_get (HStr "dependent-tasks") task
                     = Some (EDeps (dependent_tasks g))
                     /\ dict_get (HStr "primary-dependency") task = Some (ETask p)).
  { destruct Hkeep as [Hfalsy|(a & items & Htpl & Hd & Hpd)].
    - rewrite Hfalsy in Htask. by destruct Htask as [-> _].
    - rewrite Htpl in Htask. destruct (truthy (PDict a items));
        [|by destruct Htask as [-> _]].
      destruct Htask as (copy & Hcopy & Hup).
      destruct (deepcopy_dict a items m) as (items' & m1 & E & _ & Hkeys & _).
      rewrite E in Hcopy. injection Hcopy as <- _.
      rewrite py_update_dict in Hup. injection Hup as <-.
      assert (Hout : forall k, dict_get k items = None ->
                HStr k ∉ dict_keys (map (fun kv => (HStr kv.1, EObj kv.2)) items')).
      { intros k Hk. rewrite dict_keys_template, Hkeys. intros Hmem.
        apply list_elem_of_fmap in Hmem as (k' & [= <-] & Hmem).
        by apply dict_get_None in Hk. }
      split; rewrite dict_get_update_notin by auto; reflexivity. }
  destruct Hentries as [Hdeps Hprimary].
  split_and!; try done.
  - unfold required_ok. simpl. by rewrite Hdeps, Hprimary.
  - intros Hfalsy. rewrite Hfalsy in Htask. by destruct Htask as [-> _].
Qed.

Lemma loader_meets_schema_witness :
  exists dep_tasks primary,
    dep_tasks ∈ yielded (Examples.one_group MoreExamples.config_worker
                           [Examples.build; Examples.signing])
    /\ dict_get (HStr "dependent-tasks") MoreExamples.worker_task
       = Some (EDeps (dependent_tasks dep_tasks))
    /\ dict_values (dependent_tasks dep_tasks) = dep_tasks
    /\ dict_get (HStr "primary-dependency") MoreExamples.worker_task
       = Some (ETask primary)
    /\ dict_get (kind primary) (dependent_tasks dep_tasks) = Some primary
    /\ required_ok schema MoreExamples.worker_task = true
    /\ (truthy (py_get "task-template" MoreExamples.config_worker) = false ->
        validate schema MoreExamples.worker_task = true).
Proof.
  apply (loader_meets_schema Examples.one_group "signing" "taskcluster/ci/signing"
           MoreExamples.config_worker [] [Examples.build; Examples.signing] 10).
  - right. eexists _, _. split; [reflexivity|]. split; reflexivity.
  - apply list_elem_of_here.
Defined.

(** *** The copies of the template *)

Lemma config_addrs_dict_set (d : task_dict) hk e b :
  b ∈ config_addrs (dict_set hk e d) -> b ∈ config_addrs d \/ b ∈ entry_config_addrs e.
Proof.
  unfold config_addrs. induction d as [|[k' e'] d IH]; simpl.
  - rewrite app_nil_r. by right.
  - destruct (decide (hk = k')); simpl; rewrite !elem_of_app; [tauto|].
    intros [?|Hb]; [tauto|]. apply IH in Hb. tauto.
Qed.

Lemma config_addrs_update_dict (task : task_dict) items b :
  b ∈ config_addrs (dict_update task (map (fun kv => (HStr kv.1, EObj kv.2)) items)) ->
  b ∈ config_addrs task \/ b ∈ flat_map (fun kv => addrs kv.2) items.
Proof.
  unfold dict_update. revert task.
  induction items as [|[k v] items IH]; simpl; intros task Hb; [by left|].
  rewrite elem_of_app. apply IH in Hb as [Hb|Hb]; [|tauto].
  apply config_addrs_dict_set in Hb. simpl in Hb. tauto.
Qed.

Lemma as_pair_addrs i e k v b :
  as_pair i e = Ok (k, v) -> b ∈ addrs v -> b ∈ addrs e.
Proof.
  unfold as_pair. destruct e as [ | | |s|a items|a items]; simpl; try done.
  - destruct (chars s) as [|c1 [|c2 [|c3 cs]]]; simpl; try done.
    intros [= _ <-] Hb. by apply elem_of_nil in Hb.
  - destruct items as [|x [|y [|z items]]]; try done.
    intros [= _ <-] Hb. simpl. apply list_elem_of_further.
    rewrite !elem_of_app. tauto.
  - destruct items as [|[k1 v1] [|[k2 v2] [|z items]]]; try done.
    intros [= _ <-] Hb. by apply elem_of_nil in Hb.
Qed.

Lemma config_addrs_update_pairs i elems (task task' : task_dict) b :
  update_pairs i elems task = Ok task' ->
  b ∈ config_addrs task' -> b ∈ config_addrs task \/ b ∈ flat_map addrs elems.
Proof.
  revert i task. induction elems as [|e elems IH]; intros i task; simpl.
  - intros [= <-]. by left.
  - destruct (as_pair i e) as [[k v]|?] eqn:Hpair; simpl; [|done].
    destruct (as_key k) as [hk|?]; simpl; [|done].
    intros Hup Hb. rewrite elem_of_app.
    destruct (IH _ _ Hup Hb) as [Hb'|Hb']; [|tauto].
    apply config_addrs_dict_set in Hb' as [?|Hv]; [tauto|].
    right. left. by apply (as_pair_addrs i e k v).
Qed.

(** The containers of an updated task are those it had and those of the
    object it was updated with. *)
Lemma config_addrs_py_update (task task' : task_dict) other b :
  py_update task other = Ok task' ->
  b ∈ config_addrs task' -> b ∈ config_addrs task \/ b ∈ addrs other.
Proof.
  destruct other as [ | | |s|a items|a items]; simpl; try done.
  - intros Hup Hb. apply (config_addrs_update_pairs _ _ _ _ _ Hup) in Hb as [?|Hb];
      [tauto|]. exfalso. clear -Hb. induction (chars s); simpl in Hb; [|done].
    by apply elem_of_nil in Hb.
  - intros Hup Hb. apply (config_addrs_update_pairs _ _ _ _ _ Hup) in Hb as [?|Hb];
      [tauto|]. right. by apply list_elem_of_further.
  - intros [= <-] Hb. apply config_addrs_update_dict in Hb as [?|Hb]; [tauto|].
    right. by apply list_elem_of_further.
Qed.

(** The containers of the task of one group were created while its body
    ran. *)
Lemma loader_body_addrs config tpl g m task m' :
  loader_body config tpl g m = Ok (task, m') ->
  m <= m' /\ forall b, b ∈ config_addrs task -> m <= b < m'.
Proof.
  intros Hbody. apply loader_body_ok in Hbody as (_ & p & _ & Htask).
  destruct (truthy tpl).
  - destruct Htask as (copy & Hcopy & Hup).
    destruct (deepcopy_spec tpl m) as (y & m1 & E & Hle & _ & Hfr).
    rewrite E in Hcopy. injection Hcopy as <- <-. split; [done|].
    intros b Hb. apply (config_addrs_py_update _ _ _ _ Hup) in Hb as [Hb|Hb].
    + simpl in Hb. by apply elem_of_nil in Hb.
    + rewrite Forall_forall in Hfr. by apply Hfr.
  - destruct Htask as [-> ->]. split; [done|]. intros b Hb. simpl in Hb.
    by apply elem_of_nil in Hb.
Qed.

Lemma loader_loop_addrs config tpl groups n i ti :
  yielded (loader_loop config tpl groups n) !! i = Some ti ->
  forall b, b ∈ config_addrs ti -> n <= b.
Proof.
  revert n i. induction groups as [|g rest IH|e]; intros n i; simpl; [done| |done].
  destruct (loader_body config tpl g n) as [[task n']|e] eqn:Hbody; simpl; [|done].
  apply loader_body_addrs in Hbody as [Hle Hrange].
  destruct i as [|i]; simpl.
  - intros [= <-] b Hb. apply Hrange in Hb. lia.
  - intros Hi b Hb. pose proof (IH _ _ Hi b Hb). lia.
Qed.

Lemma loader_loop_apart config tpl groups n i j ti tj :
  i < j ->
  yielded (loader_loop config tpl groups n) !! i = Some ti ->
  yielded (loader_loop config tpl groups n) !! j = Some tj ->
  forall b, b ∈ config_addrs ti -> b ∉ config_addrs tj.
Proof.
  revert n i j. induction groups as [|g rest IH|e]; intros n i j Hij; simpl;
    [done| |done].
  destruct (loader_body config tpl g n) as [[task n']|e] eqn:Hbody; simpl; [|done].
  apply loader_body_addrs in Hbody as [Hle Hrange].
  destruct j as [|j]; [lia|]. destruct i as [|i]; simpl.
  - intros [= <-] Hj b Hb Hb'. apply Hrange in Hb.
    pose proof (loader_loop_addrs _ _ _ _ _ _ Hj b Hb'). lia.
  - intros Hi Hj. apply (IH n' i j); [lia | done | done].
Qed.

(** The configuration values in a yielded task, which are the deep copy of
    the template that [task.update] stored in it, are made of lists and
    mappings created while [loader] ran.  For every yielded task, the only
    or the last one included: none of them existed when [loader] started
    (their identities are at or above the first free one, [n]); none is an
    object of the template, when the template existed by then; and none
    occurs among the values in the task of any other group, yielded before
    or after.  (The tasks under the computed entries are not copied and are
    outside this statement.) *)
Theorem loader_copies_apart
    (group_tasks : pydict string pyobj -> list Task -> gen (list Task))
    (kind_ path : string) (config params : pydict string pyobj)
    (loaded_tasks : list Task) (n : addr) i ti :
  yielded (loader group_tasks kind_ path config params loaded_tasks n) !! i
  = Some ti ->
  Forall (fun b => n <= b) (config_addrs ti)
  /\ (Forall (fun b => b < n) (addrs (py_get "task-template" config)) ->
      Forall (fun b => b ∉ addrs (py_get "task-template" config))
             (config_addrs ti))
  /\ (forall j tj,
        j <> i ->
        yielded (loader group_tasks kind_ path config params loaded_tasks n) !! j
        = Some tj ->
        Forall (fun b => b ∉ config_addrs tj) (config_addrs ti)).
Proof.
  unfold loader. generalize (py_get "task-template" config) as tpl.
  generalize (group_tasks config loaded_tasks) as groups. intros groups tpl Hi.
  assert (Hfresh : Forall (fun b => n <= b) (config_addrs ti)).
  { apply Forall_forall. intros b Hb. by eapply loader_loop_addrs. }
  split_and!; [done | |].
  - intros Hold. apply Forall_forall. intros b Hb Hb'.
    rewrite Forall_forall in Hfresh, Hold.
    specialize (Hfresh b Hb). specialize (Hold b Hb'). simpl in Hold. lia.
  - intros j tj Hne Hj. apply Forall_forall. intros b Hb Hb'.
    destruct (decide (i < j)) as [Hlt|Hge].
    + by apply (loader_loop_apart _ _ _ _ _ _ _ _ Hlt Hi Hj b Hb).
    + assert (Hlt : j < i) by lia.
      by apply (loader_loop_apart _ _ _ _ _ _ _ _ Hlt Hj Hi b Hb').
Qed.

Lemma loader_copies_apart_witness :
  Forall (fun b => 10 <= b) (config_addrs MoreExamples.second_templated_task)
  /\ (Forall (fun b => b < 10) (addrs (py_get "task-template" Examples.config_template)) ->
      Forall (fun b => b ∉ addrs (py_get "task-template" Examples.config_template))
             (config_addrs MoreExamples.second_templated_task))
  /\ (forall j tj,
        j <> 1 ->
        yielded (loader MoreExamples.two_groups "signing" "taskcluster/ci/signing"
                   Examples.config_template [] [Examples.build; Examples.signing] 10)
        !! j = Some tj ->
        Forall (fun b => b ∉ config_addrs tj)
               (config_addrs MoreExamples.second_templated_task)).
Proof.
  apply (loader_copies_apart MoreExamples.two_groups "signing"
           "taskcluster/ci/signing" Examples.config_template []
           [Examples.build; Examples.signing] 10 1).
  reflexivity.
Defined.

(** *** A configuration without primary dependency *)

(** When ["primary-dependency"] is absent from the configuration, or empty,
    [loader] yields no task at all: the first group, whatever it holds, ends
    it with an exception. *)
Theorem loader_needs_primary_dependency
    (group_tasks : pydict string pyobj -> list Task -> gen (list Task))
    (kind_ path : string) (config params : pydict string pyobj)
    (loaded_tasks : list Task) (n : addr) :
  isinstance_str (py_get "primary-dependency" config) = false ->
  truthy (py_get "primary-dependency" config) = false ->
  yielded (loader group_tasks kind_ path config params loaded_tasks n) = []
  /\ (yielded (group_tasks config loaded_tasks) <> [] ->
      exists e, thrown (loader group_tasks kind_ path config params loaded_tasks n)
                = Some e).
Proof.
  intros Hstr Hfalsy.
  assert (Hnever : forall d p, get_primary_dep config d <> Ok p).
  { intros d p. unfold get_primary_dep. rewrite Hstr, Hfalsy. simpl.
    by destruct (bool_decide (dict_len d = 1)). }
  unfold loader. destruct (group_tasks config loaded_tasks) as [|g rest|e]; simpl;
    [done| |done].
  destruct (loader_body config (py_get "task-template" config) g n)
    as [[task n']|e] eqn:Hbody; simpl.
  - apply loader_body_ok in Hbody as (_ & p & Hp & _). by apply Hnever in Hp.
  - split; [done|]. eauto.
Qed.

Lemma loader_needs_primary_dependency_witness :
  yielded (loader Examples.one_group "signing" "taskcluster/ci/signing"
             Examples.config_none [] [Examples.build] 10) = []
  /\ (yielded (Examples.one_group Examples.config_none [Examples.build]) <> [] ->
      exists e, thrown (loader Examples.one_group "signing" "taskcluster/ci/signing"
                          Examples.config_none [] [Examples.build] 10)
                = Some e).
Proof.
  apply (loader_needs_primary_dependency Examples.one_group "signing"
           "taskcluster/ci/signing" Examples.config_none [] [Examples.build] 10);
    reflexivity.
Defined.

End LoaderProperties.
